(** * IADidactica: the direct-current circuit animation of [src/App.tsx]

    A shallow embedding of the simulation logic of the React component
    [App]: the track geometry [getXY], the animation-frame callback [loop],
    the click handler [handleToggle] and the re-subscription of the
    animation effect when one of its dependencies changes.

    Number model.  A JavaScript [number] is modelled by an exact rational
    ([Q]); the positions of the battery electrons, which go through
    [Math.sqrt], are modelled by real numbers ([R]), rational inputs being
    injected with [Q2R].  Rounding of IEEE doubles is not modelled, except
    where the code prints a number with [toFixed]: that expression is
    computed on binary64 floats.

    Event model.  The component reacts to two events, an animation frame
    and a click.  The state updates a callback queues are applied together
    before the next event, each updater function on the value its cell then
    holds; a callback reads [isCircuitClosed] and [isBatteryDead] as they
    were when the event started. *)

From Stdlib Require Import ZArith QArith Qminmax Qabs Qround Lqa Lia List Bool.
From Stdlib Require Import Reals Qreals Lra.
From Stdlib Require Floats.PrimFloat Floats.SpecFloat Floats.FloatOps.
Import ListNotations.

Local Open Scope Q_scope.

(** ** JavaScript number operations *)

Module JS.

(** Rounding toward zero of a rational. *)
Definition trunc (q : Q) : Z := Z.quot (Qnum q) (Zpos (Qden q)).

(** [a % n]: the remainder has the sign of the dividend [a]. *)
Definition rem (a n : Q) : Q := a - n * inject_Z (trunc (a / n)).

(** [a > b], [a >= b], [a === b] on numbers. *)
Definition gt (a b : Q) : bool := negb (Qle_bool a b).
Definition ge (a b : Q) : bool := Qle_bool b a.
Definition eq (a b : Q) : bool := Qeq_bool a b.

(** Truthiness of a number: [!v] holds exactly for [0]. *)
Definition falsy (v : Q) : bool := Qeq_bool v 0.

(** The exact value of a finite double; 0 for the zeros and, by convention,
    for the infinities and NaN, which no sample is. *)
Definition double (v : PrimFloat.float) : Q :=
  match FloatOps.Prim2SF v with
  | SpecFloat.S754_finite s m e =>
      (if s then -1 else 1) * inject_Z (Zpos m) * 2 ^ e
  | _ => 0
  end.

(** [v.toFixed(2)] for a finite double [v] below [1e21], kept as the number
    the digits denote: the sign is set aside and the integer [n] with
    [n / 100] nearest to the exact value of [|v|] is taken, the larger one
    on a tie. *)
Definition toFixed2 (v : PrimFloat.float) : Q :=
  let x := double v in
  let n := Qfloor (Qabs x * 100 + (1 # 2)) in
  if Qle_bool 0 x then Qmake n 100 else - Qmake n 100.

End JS.

(** ** Constants *)

Definition OUTER_W : Q := 650.
Definition OUTER_H : Q := 400.
Definition CONDUCTOR_W : Q := 15.
Definition TRACK_W : Q := 635.
Definition TRACK_H : Q := 385.
Definition PERIMETER : Q := 2 * (TRACK_W + TRACK_H).
Definition ELECTRON_COUNT : nat := 1000.
Definition SPEED_PX_S : Q := 20.
Definition ELECTROLYTE_DRAIN_S : Q := 5.
Definition ION_DRAIN_S : Q := 5.
Definition RAIL_OFFSET : Q := 15 # 2.

(** ** Track geometry *)

Module Pt.
Record t : Type := mk { x : Q; y : Q; angle : Q; isHorizontal : bool }.
End Pt.

Definition getXY (trackPos : Q) : Pt.t :=
  if Qle_bool trackPos TRACK_W then
    Pt.mk (RAIL_OFFSET + trackPos) RAIL_OFFSET 0 true
  else if Qle_bool trackPos (TRACK_W + TRACK_H) then
    Pt.mk (RAIL_OFFSET + TRACK_W) (RAIL_OFFSET + (trackPos - TRACK_W)) 90 false
  else if Qle_bool trackPos (2 * TRACK_W + TRACK_H) then
    Pt.mk (RAIL_OFFSET + TRACK_W - (trackPos - (TRACK_W + TRACK_H)))
          (RAIL_OFFSET + TRACK_H) 180 true
  else
    Pt.mk RAIL_OFFSET
          (RAIL_OFFSET + TRACK_H - (trackPos - (2 * TRACK_W + TRACK_H)))
          270 false.

(** ** Component state *)

Record Electron : Type := mkElectron {
  trackPos : Q;
  transversePos : Q;
  vx : Q;
  vy : Q;
  vfreq : Q
}.

Module BE.
(** A battery electron [{ id, x, y }]. *)
Record t : Type := mk { id : Z; x : R; y : R }.
(** The object returned by the mapping step of [loop]: the electron and
    whether the own property [dead] was added to it. *)
Record marked : Type := mark { val : t; dead : bool }.
End BE.

(** The [useState] cells, the two [useRef] cells and the variable
    [lastSecond] local to the animation effect. *)
Record State : Type := mkState {
  isCircuitClosed : bool;
  isBatteryDead : bool;
  electrolyteHeight : Q;
  visibleIons : Q;
  electrons : list Electron;
  batteryElectrons : list BE.t;
  lastTimeRef : Q;
  batteryElectronIdCounter : Z;
  lastSecond : Q
}.

Definition setIsCircuitClosed (v : bool) (s : State) : State :=
  mkState v (isBatteryDead s) (electrolyteHeight s) (visibleIons s)
          (electrons s) (batteryElectrons s) (lastTimeRef s)
          (batteryElectronIdCounter s) (lastSecond s).

Definition setIsBatteryDead (v : bool) (s : State) : State :=
  mkState (isCircuitClosed s) v (electrolyteHeight s) (visibleIons s)
          (electrons s) (batteryElectrons s) (lastTimeRef s)
          (batteryElectronIdCounter s) (lastSecond s).

Definition setElectrolyteHeight (v : Q) (s : State) : State :=
  mkState (isCircuitClosed s) (isBatteryDead s) v (visibleIons s)
          (electrons s) (batteryElectrons s) (lastTimeRef s)
          (batteryElectronIdCounter s) (lastSecond s).

Definition setVisibleIons (v : Q) (s : State) : State :=
  mkState (isCircuitClosed s) (isBatteryDead s) (electrolyteHeight s) v
          (electrons s) (batteryElectrons s) (lastTimeRef s)
          (batteryElectronIdCounter s) (lastSecond s).

Definition setElectrons (f : list Electron -> list Electron) (s : State) : State :=
  mkState (isCircuitClosed s) (isBatteryDead s) (electrolyteHeight s)
          (visibleIons s) (f (electrons s)) (batteryElectrons s)
          (lastTimeRef s) (batteryElectronIdCounter s) (lastSecond s).

Definition setBatteryElectrons (f : list BE.t -> list BE.t) (s : State) : State :=
  mkState (isCircuitClosed s) (isBatteryDead s) (electrolyteHeight s)
          (visibleIons s) (electrons s) (f (batteryElectrons s))
          (lastTimeRef s) (batteryElectronIdCounter s) (lastSecond s).

Definition setLastTimeRef (v : Q) (s : State) : State :=
  mkState (isCircuitClosed s) (isBatteryDead s) (electrolyteHeight s)
          (visibleIons s) (electrons s) (batteryElectrons s) v
          (batteryElectronIdCounter s) (lastSecond s).

Definition setBatteryElectronIdCounter (v : Z) (s : State) : State :=
  mkState (isCircuitClosed s) (isBatteryDead s) (electrolyteHeight s)
          (visibleIons s) (electrons s) (batteryElectrons s) (lastTimeRef s)
          v (lastSecond s).

Definition setLastSecond (v : Q) (s : State) : State :=
  mkState (isCircuitClosed s) (isBatteryDead s) (electrolyteHeight s)
          (visibleIons s) (electrons s) (batteryElectrons s) (lastTimeRef s)
          (batteryElectronIdCounter s) v.

(** ** Initial state *)

(** The seven values of [Math.random()] consumed for one initial electron,
    in call order; the last one, which ends in [toFixed], as the double it
    is. *)
Record ElectronSeed : Type := mkSeed {
  rTrack : Q; rTransverse : Q;
  rVx : Q; rVxSign : Q;
  rVy : Q; rVySign : Q;
  rFreq : PrimFloat.float
}.

Section InitialElectron.

Import PrimFloat.

#[warnings="-inexact-float"]
Definition initialElectron (r : ElectronSeed) : Electron :=
  mkElectron (rTrack r * PERIMETER)
             ((rTransverse r - (1 # 2)) * 12)
             ((rVx r * 2 + 1) * (if JS.gt (rVxSign r) (1 # 2) then 1 else -1))
             ((rVy r * 2 + 1) * (if JS.gt (rVySign r) (1 # 2) then 1 else -1))
             (JS.toFixed2 (rFreq r * 0.3 + 0.2)%float).

End InitialElectron.

(** The state once the mount effect has stored [initialElectrons]; [seeds]
    has [ELECTRON_COUNT] entries in the running program. *)
Definition init (seeds : list ElectronSeed) : State :=
  mkState false false 75 75 (map initialElectron seeds) [] 0 0%Z 0.

(** ** The animation frame callback *)

(** The values of [Math.random()] a frame may consume: the spawn roll and
    the two rolls for the start position. *)
Record Samples : Type := mkSamples { rSpawn : Q; rStartX : Q; rStartY : Q }.

(** [deltaTime], after the first-frame guard on [lastTimeRef.current]. *)
Definition deltaTimeOf (time : Q) (s : State) : Q :=
  let last := if JS.falsy (lastTimeRef s) then time else lastTimeRef s in
  (time - last) / 1000.

Definition moveElectron (deltaTime : Q) (e : Electron) : Electron :=
  mkElectron (JS.rem (trackPos e + SPEED_PX_S * deltaTime) PERIMETER)
             (transversePos e) (vx e) (vy e) (vfreq e).

(** The once-per-second branch: both updaters run on the current cells. *)
Definition drain (time : Q) (s : State) : State :=
  if JS.ge (time - lastSecond s) 1000 then
    let s1 := setLastSecond time s in
    let newH := Qmax 0 (electrolyteHeight s1 - ELECTROLYTE_DRAIN_S) in
    let s2 := if JS.eq newH 0 then setIsBatteryDead true s1 else s1 in
    let s3 := setElectrolyteHeight newH s2 in
    setVisibleIons (Qmax 0 (visibleIons s3 - ION_DRAIN_S)) s3
  else s.

Definition spawn (rnd : Samples) (s : State) : State :=
  if JS.gt (rSpawn rnd) (7 # 10) then
    let id := batteryElectronIdCounter s in
    let s1 := setBatteryElectronIdCounter (id + 1)%Z s in
    let startX := 350 + rStartX rnd * 45 in
    let startY := (RAIL_OFFSET - (75 # 2)) + rStartY rnd * 70 in
    setBatteryElectrons
      (fun prev => prev ++ [BE.mk id (Q2R startX) (Q2R startY)]) s1
  else s.

Definition targetX : R := (325 + 75)%R.
Definition targetY : R := Q2R RAIL_OFFSET.

Definition slideBatteryElectron (deltaTime : R) (be : BE.t) : BE.marked :=
  let dx := (targetX - BE.x be)%R in
  let dy := (targetY - BE.y be)%R in
  let dist := sqrt (dx * dx + dy * dy) in
  if Rlt_dec dist 5 then BE.mark (BE.mk (BE.id be) targetX targetY) true
  else
    BE.mark (BE.mk (BE.id be)
                   (BE.x be + (dx / dist) * 100 * deltaTime)%R
                   (BE.y be + (dy / dist) * 100 * deltaTime)%R) false.

Definition slideBatteryElectrons (deltaTime : R) (prev : list BE.t) : list BE.t :=
  map BE.val
      (filter (fun m => negb (BE.dead m)) (map (slideBatteryElectron deltaTime) prev)).

(** The flag [isCircuitClosed && !isBatteryDead] of the render the callback
    was created in. *)
Definition energized (s : State) : bool :=
  isCircuitClosed s && negb (isBatteryDead s).

Definition loop (time : Q) (rnd : Samples) (s : State) : State :=
  let deltaTime := deltaTimeOf time s in
  let s1 := setLastTimeRef time s in
  let s2 :=
    if energized s then
      let sa := setElectrons (map (moveElectron deltaTime)) s1 in
      let sb := drain time sa in
      spawn rnd sb
    else s1 in
  setBatteryElectrons (slideBatteryElectrons (Q2R deltaTime)) s2.

(** ** The click handler *)

Definition handleToggle (s : State) : State :=
  if isBatteryDead s then
    setIsCircuitClosed false
      (setIsBatteryDead false
         (setVisibleIons 75 (setElectrolyteHeight 75 s)))
  else setIsCircuitClosed (negb (isCircuitClosed s)) s.

(** ** Events and re-subscription of the animation effect *)

Inductive Event : Type :=
| Frame (time : Q) (rnd : Samples)
| Toggle.

(** The animation effect depends on [[isCircuitClosed, isBatteryDead]]: when
    one of them differs after an event the effect is torn down and set up
    again, which runs [let lastSecond = 0] anew.  [lastTimeRef] is a ref of
    the component and survives. *)
Definition depsChanged (old new : State) : bool :=
  negb (Bool.eqb (isCircuitClosed old) (isCircuitClosed new)
        && Bool.eqb (isBatteryDead old) (isBatteryDead new)).

Definition commit (old new : State) : State :=
  if depsChanged old new then setLastSecond 0 new else new.

Definition step (s : State) (ev : Event) : State :=
  match ev with
  | Frame time rnd => commit s (loop time rnd s)
  | Toggle => commit s (handleToggle s)
  end.

Fixpoint run (s : State) (evs : list Event) : State :=
  match evs with
  | [] => s
  | ev :: rest => run (step s ev) rest
  end.

(** Whether the once-per-second branch of [loop] is taken. *)
Definition depletes (time : Q) (s : State) : bool :=
  energized s && JS.ge (time - lastSecond s) 1000.

(** The number of depletion events since the last reset, [n] being that
    number before the event. *)
Definition countEvent (n : nat) (s : State) (ev : Event) : nat :=
  match ev with
  | Frame time _ => if depletes time s then S n else n
  | Toggle => if isBatteryDead s then O else n
  end.

Fixpoint depletionsSinceReset (n : nat) (s : State) (evs : list Event) : nat :=
  match evs with
  | [] => n
  | ev :: rest => depletionsSinceReset (countEvent n s ev) (step s ev) rest
  end.

(** The time, in seconds, the frames of a run have measured while the
    circuit was energized. *)
Fixpoint energizedSeconds (s : State) (evs : list Event) : Q :=
  match evs with
  | [] => 0
  | ev :: rest =>
      match ev with
      | Frame time _ => if energized s then deltaTimeOf time s else 0
      | Toggle => 0
      end + energizedSeconds (step s ev) rest
  end.

(** The battery invariant: the level after [n] depletion events since the
    last reset, and the dead flag set exactly at level [0]. *)
Definition batteryInv (n : nat) (s : State) : Prop :=
  electrolyteHeight s == Qmax 0 (75 - inject_Z (Z.of_nat n) * ELECTROLYTE_DRAIN_S) /\
  (isBatteryDead s = true <-> electrolyteHeight s == 0).

(** A stationary carrier whose track coordinate is in [[0, PERIMETER)]. *)
Definition inRange (e : Electron) : Prop :=
  0 <= trackPos e /\ trackPos e < PERIMETER.

(** The frame timestamps of a run never go back behind [last]. *)
Fixpoint monotone (last : Q) (evs : list Event) : Prop :=
  match evs with
  | [] => True
  | Frame time _ :: rest => last <= time /\ monotone time rest
  | Toggle :: rest => monotone last rest
  end.

(** ** Flight of a battery electron *)

(** The distance [dist] that [loop] computes for a battery electron. *)
Definition distToTarget (be : BE.t) : R :=
  let dx := (targetX - BE.x be)%R in
  let dy := (targetY - BE.y be)%R in
  sqrt (dx * dx + dy * dy).



(** The battery electron a frame spawns, if it spawns one. *)
Definition spawned (rnd : Samples) (s : State) : list BE.t :=
  if energized s && JS.gt (rSpawn rnd) (7 # 10) then
    [BE.mk (batteryElectronIdCounter s)
           (Q2R (350 + rStartX rnd * 45))
           (Q2R ((RAIL_OFFSET - (75 # 2)) + rStartY rnd * 70))]
  else [].

(** ** The proportional variant of the slide

    The older copies of the component ([src/unnamed/part_000] and the second
    half of [src/App.tsx]) draw the scene 100 units lower and to the right,
    move each battery electron by the fraction [deltaTime] of its offset to
    the target, and keep the electrons that are then farther than 5 from
    it. *)
Module Proportional.

Definition targetX : R := (100 + 325 + 75)%R.
Definition targetY : R := (100 + Q2R RAIL_OFFSET)%R.

Definition slideBatteryElectron (deltaTime : R) (be : BE.t) : BE.t :=
  let dx := ((targetX - BE.x be) * (deltaTime / 1))%R in
  let dy := ((targetY - BE.y be) * (deltaTime / 1))%R in
  BE.mk (BE.id be) (BE.x be + dx)%R (BE.y be + dy)%R.

Definition farFromTarget (be : BE.t) : bool :=
  if Rgt_dec (sqrt ((BE.x be - targetX) ^ 2 + (BE.y be - targetY) ^ 2)) 5
  then true else false.

Definition slideBatteryElectrons (deltaTime : R) (prev : list BE.t) : list BE.t :=
  filter farFromTarget (map (slideBatteryElectron deltaTime) prev).

End Proportional.

(** ** States and samples used in the examples *)

(** A frame that spawns no battery electron. *)
Definition noSpawn : Samples := mkSamples 0 0 0.

Definition deadState : State :=
  mkState true true 0 0 [mkElectron 100 0 1 1 (1 # 4)] [] 3000 0%Z 2000.

Definition liveState : State :=
  mkState true false 40 40 [mkElectron 2030 0 1 1 (1 # 4)] [] 1000 0%Z 1000.

(** Closed and alive with the last 5 units of charge. *)
Definition lastGaspState : State :=
  mkState true false 5 5 [mkElectron 100 0 1 1 (1 # 4)] [] 1000 0%Z 0.

(** A seed that puts the electron at track coordinate [10], and one that
    puts it at [1020]. *)
Definition seedAt10 : ElectronSeed := mkSeed (10 # 2040) 0 0 0 0 0 PrimFloat.zero.
Definition seedAt1020 : ElectronSeed := mkSeed (1 # 2) 0 0 0 0 0 PrimFloat.zero.

(** The samples that spawn a battery electron at [(387.5, 7.5)], on the
    rail 12.5 units left of the target. *)
Definition spawnOnRail : Samples := mkSamples (8 # 10) (5 # 6) (15 # 28).



(** Closing the switch at 1000 ms and one frame per second for 15 s. *)
Definition fifteenSeconds : list Event :=
  Toggle ::
  map (fun k => Frame (inject_Z (Z.of_nat k) * 1000) noSpawn) (seq 1 15).


Section FrequencySample.

Import PrimFloat.

(** A seed whose last sample is the double 0.75. *)
Definition seedFreq075 : ElectronSeed := mkSeed 0 0 0 0 0 0 0.75%float.

End FrequencySample.

(** ** Rendering

    What the returned markup computes from the state: the circle drawn for
    a stationary carrier, and the ions shown in the left plate of the
    battery. *)
Module Render.

Record circle : Type := mkCircle { cx : Q; cy : Q }.

(** [Math.abs(y - RAIL_OFFSET) < 1]. *)
Definition onTopRail (pt : Pt.t) : bool :=
  negb (Qle_bool 1 (Qabs (Pt.y pt - RAIL_OFFSET))).

Definition isUnderBattery (pt : Pt.t) : bool :=
  onTopRail pt && Qle_bool (325 - 75) (Pt.x pt) && Qle_bool (Pt.x pt) (325 + 75).

Definition switchXStart : Q := 325 + 75 + 50.

Definition isUnderSwitch (isCircuitClosed : bool) (pt : Pt.t) : bool :=
  negb isCircuitClosed
  && (onTopRail pt && Qle_bool switchXStart (Pt.x pt)
      && Qle_bool (Pt.x pt) (switchXStart + 30)).

(** The callback of [electrons.map]: [None] for [return null]. *)
Definition electronCircle (isCircuitClosed : bool) (e : Electron) : option circle :=
  let pt := getXY (trackPos e) in
  let cx := if Pt.isHorizontal pt then Pt.x pt else Pt.x pt + transversePos e in
  let cy := if Pt.isHorizontal pt then Pt.y pt + transversePos e else Pt.y pt in
  if isUnderBattery pt || isUnderSwitch isCircuitClosed pt then None
  else Some (mkCircle cx cy).

(** The memoised list of ions [{ r, c }], 15 rows of 5. *)
Definition positiveIons : list (nat * nat) :=
  flat_map (fun r => map (fun c => (r, c)) (seq 0 5)) (seq 0 15).

(** [l.slice(0, stop)]: [stop] is truncated to an integer; a negative one
    counts from the end of the list. *)
Definition slice0 {A : Type} (l : list A) (stop : Q) : list A :=
  let len := Z.of_nat (length l) in
  let relativeEnd := JS.trunc stop in
  let final :=
    if (relativeEnd <? 0)%Z then Z.max (len + relativeEnd) 0
    else Z.min relativeEnd len in
  firstn (Z.to_nat final) l.

Definition shownIons (s : State) : list (nat * nat) :=
  slice0 positiveIons (visibleIons s).

End Render.

(** The point [(x, y)] lies on the midline of the conductor. *)
Definition onMidline (x y : Q) : Prop :=
  (RAIL_OFFSET <= x /\ x <= RAIL_OFFSET + TRACK_W /\
   (y == RAIL_OFFSET \/ y == RAIL_OFFSET + TRACK_H)) \/
  (RAIL_OFFSET <= y /\ y <= RAIL_OFFSET + TRACK_H /\
   (x == RAIL_OFFSET \/ x == RAIL_OFFSET + TRACK_W)).

(** The point [(x, y)] lies on the conductor frame drawn by the path: inside
    the outer rectangle and not strictly inside the inner one. *)
Definition onConductor (x y : Q) : Prop :=
  0 <= x /\ x <= OUTER_W /\ 0 <= y /\ y <= OUTER_H /\
  ~ (CONDUCTOR_W < x /\ x < OUTER_W - CONDUCTOR_W /\
     CONDUCTOR_W < y /\ y < OUTER_H - CONDUCTOR_W).

(** The attributes of a stationary carrier that [loop] copies. *)
Definition frozenPart (e : Electron) : Q * Q * Q * Q :=
  (transversePos e, vx e, vy e, vfreq e).

(** The ids of the battery electrons, which are their React keys, are
    pairwise distinct and below the counter. *)
Definition idsFresh (s : State) : Prop :=
  (0 <= batteryElectronIdCounter s)%Z /\
  NoDup (map BE.id (batteryElectrons s)) /\
  Forall (fun be => (0 <= BE.id be < batteryElectronIdCounter s)%Z)
         (batteryElectrons s).


Definition isFrame (ev : Event) : bool :=
  match ev with
  | Frame _ _ => true
  | Toggle => false
  end.

(** The events are frames only, and for each of them the difference
    [time - base] that [loop] tests is below 1000. *)
Fixpoint framesWithinASecond (base : Q) (evs : list Event) : Prop :=
  match evs with
  | [] => True
  | Frame time _ :: rest => time - base < 1000 /\ framesWithinASecond base rest
  | Toggle :: _ => False
  end.

(** * Properties *)

(** ** Reflection of the comparisons *)

(** Linear arithmetic over [Q] and over [R]. *)
Ltac qlra := Lqa.lra.
Ltac rlra := Lra.lra.

Lemma Qle_bool_false (a b : Q) : Qle_bool a b = false -> b < a.
Proof.
  intros H. apply Qnot_le_lt. intros Hle.
  apply Qle_bool_iff in Hle. congruence.
Qed.

Lemma JS_eq_true (a b : Q) : JS.eq a b = true <-> a == b.
Proof. unfold JS.eq. apply Qeq_bool_iff. Qed.

(** Case split on every rational comparison in the goal. *)
Ltac qcases :=
  repeat match goal with
  | |- context [Qle_bool ?a ?b] =>
      let H := fresh "Hc" in
      destruct (Qle_bool a b) eqn:H;
      [apply Qle_bool_iff in H | apply Qle_bool_false in H]
  end.

Ltac qabs_split :=
  repeat match goal with
  | |- context [Qabs ?a] =>
      pattern (Qabs a); apply Qabs_case; intros
  end.

Ltac unfold_consts :=
  unfold PERIMETER, TRACK_W, TRACK_H, RAIL_OFFSET, SPEED_PX_S,
    ELECTROLYTE_DRAIN_S, ION_DRAIN_S in *.

(** ** Track geometry (C6) *)

(** C6, as the code has it: the point of [getXY 0] and of [getXY PERIMETER]
    is the same ([x] and [y] agree), and the [(x, y)] mapping never moves
    farther than the track coordinate does, which makes it continuous
    everywhere, in particular at the four segment boundaries. *)
Theorem getXY_point_closed_and_continuous :
  Pt.x (getXY 0) == Pt.x (getXY PERIMETER) /\
  Pt.y (getXY 0) == Pt.y (getXY PERIMETER) /\
  forall p q : Q,
    Qabs (Pt.x (getXY p) - Pt.x (getXY q)) <= Qabs (p - q) /\
    Qabs (Pt.y (getXY p) - Pt.y (getXY q)) <= Qabs (p - q).
Proof.
  split; [reflexivity|]. split; [reflexivity|].
  intros p q. unfold getXY. unfold_consts.
  qcases; cbn [Pt.x Pt.y]; split; qabs_split; qlra.
Qed.

(** C6, as stated, fails: the tangent angle and the axis orientation at
    [PERIMETER] are those of the left segment, not those at [0]. *)
Lemma getXY_perimeter_not_origin :
  Pt.angle (getXY 0) == 0 /\ Pt.isHorizontal (getXY 0) = true /\
  Pt.angle (getXY PERIMETER) == 270 /\ Pt.isHorizontal (getXY PERIMETER) = false /\
  ~ Pt.angle (getXY 0) == Pt.angle (getXY PERIMETER) /\
  Pt.isHorizontal (getXY 0) <> Pt.isHorizontal (getXY PERIMETER).
Proof.
  repeat split; try reflexivity; vm_compute; discriminate.
Qed.

(** ** Field-wise description of one event *)

Ltac unfold_setters :=
  unfold setIsCircuitClosed, setIsBatteryDead, setElectrolyteHeight,
    setVisibleIons, setElectrons, setBatteryElectrons, setLastTimeRef,
    setBatteryElectronIdCounter, setLastSecond in *.

Ltac state_simpl :=
  cbn [isCircuitClosed isBatteryDead electrolyteHeight visibleIons electrons
       batteryElectrons lastTimeRef batteryElectronIdCounter lastSecond
       andb negb Bool.eqb] in *.

Lemma commit_fields (old new : State) :
  isCircuitClosed (commit old new) = isCircuitClosed new /\
  isBatteryDead (commit old new) = isBatteryDead new /\
  electrolyteHeight (commit old new) = electrolyteHeight new /\
  visibleIons (commit old new) = visibleIons new /\
  electrons (commit old new) = electrons new /\
  batteryElectrons (commit old new) = batteryElectrons new /\
  lastTimeRef (commit old new) = lastTimeRef new /\
  batteryElectronIdCounter (commit old new) = batteryElectronIdCounter new.
Proof.
  unfold commit. destruct (depsChanged old new); unfold_setters;
    state_simpl; repeat split; reflexivity.
Qed.

(** *** The stages of [loop] *)

Lemma drain_isCircuitClosed time s :
  isCircuitClosed (drain time s) = isCircuitClosed s.
Proof.
  unfold drain. cbv zeta. destruct (JS.ge _ _); [|reflexivity].
  destruct (JS.eq _ _); reflexivity.
Qed.

Lemma drain_isBatteryDead time s :
  isBatteryDead (drain time s) =
  if JS.ge (time - lastSecond s) 1000
  then JS.eq (Qmax 0 (electrolyteHeight s - ELECTROLYTE_DRAIN_S)) 0
       || isBatteryDead s
  else isBatteryDead s.
Proof.
  unfold drain. cbv zeta. destruct (JS.ge _ _); [|reflexivity].
  change (electrolyteHeight (setLastSecond time s)) with (electrolyteHeight s).
  destruct (JS.eq _ _); reflexivity.
Qed.

Lemma drain_electrolyteHeight time s :
  electrolyteHeight (drain time s) =
  if JS.ge (time - lastSecond s) 1000
  then Qmax 0 (electrolyteHeight s - ELECTROLYTE_DRAIN_S)
  else electrolyteHeight s.
Proof.
  unfold drain. cbv zeta. destruct (JS.ge _ _); [|reflexivity].
  destruct (JS.eq _ _); reflexivity.
Qed.

Lemma drain_visibleIons time s :
  visibleIons (drain time s) =
  if JS.ge (time - lastSecond s) 1000
  then Qmax 0 (visibleIons s - ION_DRAIN_S)
  else visibleIons s.
Proof.
  unfold drain. cbv zeta. destruct (JS.ge _ _); [|reflexivity].
  destruct (JS.eq _ _); reflexivity.
Qed.

Lemma drain_electrons time s : electrons (drain time s) = electrons s.
Proof.
  unfold drain. cbv zeta. destruct (JS.ge _ _); [|reflexivity].
  destruct (JS.eq _ _); reflexivity.
Qed.

Lemma drain_batteryElectrons time s :
  batteryElectrons (drain time s) = batteryElectrons s.
Proof.
  unfold drain. cbv zeta. destruct (JS.ge _ _); [|reflexivity].
  destruct (JS.eq _ _); reflexivity.
Qed.

Lemma drain_lastTimeRef time s : lastTimeRef (drain time s) = lastTimeRef s.
Proof.
  unfold drain. cbv zeta. destruct (JS.ge _ _); [|reflexivity].
  destruct (JS.eq _ _); reflexivity.
Qed.

Lemma spawn_fields rnd s :
  isCircuitClosed (spawn rnd s) = isCircuitClosed s /\
  isBatteryDead (spawn rnd s) = isBatteryDead s /\
  electrolyteHeight (spawn rnd s) = electrolyteHeight s /\
  visibleIons (spawn rnd s) = visibleIons s /\
  electrons (spawn rnd s) = electrons s /\
  lastTimeRef (spawn rnd s) = lastTimeRef s /\
  lastSecond (spawn rnd s) = lastSecond s.
Proof.
  unfold spawn. cbv zeta. destruct (JS.gt _ _); repeat split; reflexivity.
Qed.

(** *** The fields after [loop] *)

Ltac after_slide :=
  unfold loop; cbv zeta;
  match goal with
  | |- context [setBatteryElectrons ?f ?x] =>
      change (isCircuitClosed (setBatteryElectrons f x)) with (isCircuitClosed x);
      change (isBatteryDead (setBatteryElectrons f x)) with (isBatteryDead x);
      change (electrolyteHeight (setBatteryElectrons f x)) with (electrolyteHeight x);
      change (visibleIons (setBatteryElectrons f x)) with (visibleIons x);
      change (electrons (setBatteryElectrons f x)) with (electrons x);
      change (lastTimeRef (setBatteryElectrons f x)) with (lastTimeRef x)
  end.

Ltac after_spawn :=
  match goal with
  | |- context [spawn ?r ?x] =>
      let Hc := fresh in let Hd := fresh in let Hh := fresh in
      let Hi := fresh in let He := fresh in let Ht := fresh in
      destruct (spawn_fields r x) as (Hc & Hd & Hh & Hi & He & Ht & _);
      try rewrite Hc; try rewrite Hd; try rewrite Hh; try rewrite Hi;
      try rewrite He; try rewrite Ht; clear Hc Hd Hh Hi He Ht
  end.

Lemma loop_isCircuitClosed time rnd s :
  isCircuitClosed (loop time rnd s) = isCircuitClosed s.
Proof.
  after_slide. destruct (energized s); [|reflexivity].
  after_spawn. rewrite drain_isCircuitClosed. reflexivity.
Qed.

Lemma loop_isBatteryDead time rnd s :
  isBatteryDead (loop time rnd s) =
  if depletes time s
  then JS.eq (Qmax 0 (electrolyteHeight s - ELECTROLYTE_DRAIN_S)) 0
       || isBatteryDead s
  else isBatteryDead s.
Proof.
  after_slide. unfold depletes. destruct (energized s); [|reflexivity].
  after_spawn. rewrite drain_isBatteryDead. reflexivity.
Qed.

Lemma loop_electrolyteHeight time rnd s :
  electrolyteHeight (loop time rnd s) =
  if depletes time s
  then Qmax 0 (electrolyteHeight s - ELECTROLYTE_DRAIN_S)
  else electrolyteHeight s.
Proof.
  after_slide. unfold depletes. destruct (energized s); [|reflexivity].
  after_spawn. rewrite drain_electrolyteHeight. reflexivity.
Qed.

Lemma loop_visibleIons time rnd s :
  visibleIons (loop time rnd s) =
  if depletes time s
  then Qmax 0 (visibleIons s - ION_DRAIN_S)
  else visibleIons s.
Proof.
  after_slide. unfold depletes. destruct (energized s); [|reflexivity].
  after_spawn. rewrite drain_visibleIons. reflexivity.
Qed.

Lemma loop_electrons time rnd s :
  electrons (loop time rnd s) =
  if energized s
  then map (moveElectron (deltaTimeOf time s)) (electrons s)
  else electrons s.
Proof.
  after_slide. destruct (energized s); [|reflexivity].
  after_spawn. rewrite drain_electrons. reflexivity.
Qed.

Lemma loop_lastTimeRef time rnd s : lastTimeRef (loop time rnd s) = time.
Proof.
  after_slide. destruct (energized s); [|reflexivity].
  after_spawn. rewrite drain_lastTimeRef. reflexivity.
Qed.

Lemma step_toggle_fields s :
  isCircuitClosed (step s Toggle) = isCircuitClosed (handleToggle s) /\
  isBatteryDead (step s Toggle) = isBatteryDead (handleToggle s) /\
  electrolyteHeight (step s Toggle) = electrolyteHeight (handleToggle s) /\
  visibleIons (step s Toggle) = visibleIons (handleToggle s) /\
  electrons (step s Toggle) = electrons (handleToggle s) /\
  batteryElectrons (step s Toggle) = batteryElectrons (handleToggle s) /\
  lastTimeRef (step s Toggle) = lastTimeRef (handleToggle s) /\
  batteryElectronIdCounter (step s Toggle) =
    batteryElectronIdCounter (handleToggle s).
Proof. apply commit_fields. Qed.

(** ** Reset and toggle (C2, C8) *)

(** C2, as the code has it: the toggle taken while the battery is dead
    yields [electrolyteHeight = 75], [visibleIons = 75],
    [isBatteryDead = false] and [isCircuitClosed = false], whatever the
    prior state. *)
Theorem reset_yields_initial_battery (s : State) :
  isBatteryDead s = true ->
  electrolyteHeight (handleToggle s) == 75 /\
  visibleIons (handleToggle s) == 75 /\
  isBatteryDead (handleToggle s) = false /\
  isCircuitClosed (handleToggle s) = false.
Proof.
  intros Hd. unfold handleToggle. rewrite Hd. unfold_setters. state_simpl.
  repeat split; reflexivity.
Qed.

Lemma reset_yields_initial_battery_witness :
  isBatteryDead deadState = true /\
  electrolyteHeight (handleToggle deadState) == 75 /\
  visibleIons (handleToggle deadState) == 75 /\
  isBatteryDead (handleToggle deadState) = false /\
  isCircuitClosed (handleToggle deadState) = false.
Proof.
  split; [reflexivity | apply (reset_yields_initial_battery deadState); reflexivity].
Defined.

(** C2, as stated, fails: after the reset the stored charge and the ion
    budget are 75, not 100. *)
Lemma reset_does_not_yield_100 :
  isBatteryDead deadState = true /\
  ~ electrolyteHeight (handleToggle deadState) == 100 /\
  ~ visibleIons (handleToggle deadState) == 100.
Proof.
  split; [reflexivity|]. split; vm_compute; discriminate.
Qed.

(** C8: a toggle while dead is the full reset and gives
    [isCircuitClosed = false] whatever [isCircuitClosed] was; a toggle while
    not dead negates [isCircuitClosed] and leaves the stored charge, the ion
    budget, the dead flag, both carrier populations and both refs as they
    were. *)
Theorem toggle_resets_or_flips (s : State) :
  (isBatteryDead s = true ->
     (forall b, handleToggle (setIsCircuitClosed b s) = handleToggle s) /\
     isCircuitClosed (step s Toggle) = false /\
     isBatteryDead (step s Toggle) = false /\
     electrolyteHeight (step s Toggle) = electrolyteHeight (init []) /\
     visibleIons (step s Toggle) = visibleIons (init [])) /\
  (isBatteryDead s = false ->
     isCircuitClosed (step s Toggle) = negb (isCircuitClosed s) /\
     isBatteryDead (step s Toggle) = isBatteryDead s /\
     electrolyteHeight (step s Toggle) = electrolyteHeight s /\
     visibleIons (step s Toggle) = visibleIons s /\
     electrons (step s Toggle) = electrons s /\
     batteryElectrons (step s Toggle) = batteryElectrons s /\
     lastTimeRef (step s Toggle) = lastTimeRef s /\
     batteryElectronIdCounter (step s Toggle) = batteryElectronIdCounter s).
Proof.
  destruct (step_toggle_fields s) as (Hc & Hd & Hh & Hi & He & Hb & Ht & Hn).
  rewrite Hc, Hd, Hh, Hi, He, Hb, Ht, Hn.
  split; intros Hdead; unfold handleToggle.
  - split.
    + intros b. unfold_setters. state_simpl. rewrite Hdead. reflexivity.
    + rewrite Hdead. unfold_setters. state_simpl. repeat split; reflexivity.
  - rewrite Hdead. repeat split; try reflexivity. exact Hdead.
Qed.

Lemma toggle_resets_or_flips_witness :
  (isBatteryDead deadState = true /\
   isCircuitClosed (step deadState Toggle) = false /\
   isBatteryDead (step deadState Toggle) = false) /\
  (isBatteryDead liveState = false /\
   isCircuitClosed (step liveState Toggle) = negb (isCircuitClosed liveState) /\
   electrolyteHeight (step liveState Toggle) = electrolyteHeight liveState /\
   electrons (step liveState Toggle) = electrons liveState).
Proof.
  split.
  - split; [reflexivity|].
    destruct (toggle_resets_or_flips deadState) as [H _].
    destruct (H eq_refl) as (_ & Hc & Hd & _). split; assumption.
  - split; [reflexivity|].
    destruct (toggle_resets_or_flips liveState) as [_ H].
    destruct (H eq_refl) as (Hc & _ & Hh & _ & He & _).
    repeat split; assumption.
Defined.

(** ** Depletion (C1, C10) *)

Lemma step_frame_fields time rnd s :
  isCircuitClosed (step s (Frame time rnd)) = isCircuitClosed s /\
  isBatteryDead (step s (Frame time rnd)) =
    (if depletes time s
     then JS.eq (Qmax 0 (electrolyteHeight s - ELECTROLYTE_DRAIN_S)) 0
          || isBatteryDead s
     else isBatteryDead s) /\
  electrolyteHeight (step s (Frame time rnd)) =
    (if depletes time s
     then Qmax 0 (electrolyteHeight s - ELECTROLYTE_DRAIN_S)
     else electrolyteHeight s) /\
  visibleIons (step s (Frame time rnd)) =
    (if depletes time s
     then Qmax 0 (visibleIons s - ION_DRAIN_S)
     else visibleIons s) /\
  electrons (step s (Frame time rnd)) =
    (if energized s
     then map (moveElectron (deltaTimeOf time s)) (electrons s)
     else electrons s) /\
  lastTimeRef (step s (Frame time rnd)) = time.
Proof.
  cbn [step].
  destruct (commit_fields s (loop time rnd s)) as (Hc & Hd & Hh & Hi & He & _ & Ht & _).
  rewrite Hc, Hd, Hh, Hi, He, Ht.
  rewrite loop_isCircuitClosed, loop_isBatteryDead, loop_electrolyteHeight,
    loop_visibleIons, loop_electrons, loop_lastTimeRef.
  repeat split; reflexivity.
Qed.

Lemma Qmax_0_eq (a b : Q) : a == b -> Qmax 0 a == Qmax 0 b.
Proof. intros H. rewrite H. reflexivity. Qed.

Lemma Qmax_0_nonneg (a : Q) : 0 <= Qmax 0 a.
Proof. apply Q.le_max_l. Qed.

Lemma Qmax_0_cases (a : Q) :
  (a <= 0 /\ Qmax 0 a == 0) \/ (0 < a /\ Qmax 0 a == a).
Proof.
  destruct (Q.max_spec 0 a) as [[H1 H2] | [H1 H2]]; [right | left];
    split; assumption.
Qed.

(** The equality of the two gauges is kept by every event. *)
Lemma step_gauges_equal s ev :
  electrolyteHeight s == visibleIons s ->
  electrolyteHeight (step s ev) == visibleIons (step s ev).
Proof.
  intros H. destruct ev as [time rnd|].
  - destruct (step_frame_fields time rnd s) as (_ & _ & Hh & Hi & _).
    rewrite Hh, Hi. destruct (depletes time s); [|exact H].
    apply Qmax_0_eq. unfold ELECTROLYTE_DRAIN_S, ION_DRAIN_S.
    rewrite H. reflexivity.
  - destruct (step_toggle_fields s) as (_ & _ & Hh & Hi & _).
    rewrite Hh, Hi. unfold handleToggle.
    destruct (isBatteryDead s); unfold_setters; state_simpl;
      [reflexivity | exact H].
Qed.

Lemma run_gauges_equal evs : forall s,
  electrolyteHeight s == visibleIons s ->
  electrolyteHeight (run s evs) == visibleIons (run s evs).
Proof.
  induction evs as [|ev rest IH]; intros s H; cbn [run]; [exact H|].
  apply IH. apply step_gauges_equal. exact H.
Qed.

(** C10: the electrolyte level and the visible-ion count both start at
    75; a depletion event lowers both by the same rate 5 in the same frame,
    each floored at 0, and a frame without depletion event leaves both as
    they were; the reset sets both to 75 together, and a click on a live
    battery leaves both as they were; hence the two are equal in every state
    reached from the initial one by frames and clicks. *)
Theorem gauges_equal_in_reachable_states (seeds : list ElectronSeed) (evs : list Event) :
  electrolyteHeight (init seeds) == 75 /\
  visibleIons (init seeds) == 75 /\
  ELECTROLYTE_DRAIN_S == 5 /\ ION_DRAIN_S == 5 /\
  electrolyteHeight (run (init seeds) evs) == visibleIons (run (init seeds) evs) /\
  (forall (s : State) (time : Q) (rnd : Samples),
     (depletes time s = true ->
      electrolyteHeight (step s (Frame time rnd)) ==
        Qmax 0 (electrolyteHeight s - 5) /\
      visibleIons (step s (Frame time rnd)) ==
        Qmax 0 (visibleIons s - 5)) /\
     (depletes time s = false ->
      electrolyteHeight (step s (Frame time rnd)) == electrolyteHeight s /\
      visibleIons (step s (Frame time rnd)) == visibleIons s)) /\
  (forall s : State,
     (isBatteryDead s = true ->
      electrolyteHeight (step s Toggle) == 75 /\
      visibleIons (step s Toggle) == 75) /\
     (isBatteryDead s = false ->
      electrolyteHeight (step s Toggle) == electrolyteHeight s /\
      visibleIons (step s Toggle) == visibleIons s)).
Proof.
  split; [reflexivity|]. split; [reflexivity|].
  split; [reflexivity|]. split; [reflexivity|].
  split; [apply run_gauges_equal; reflexivity|]. split.
  - intros s time rnd.
    destruct (step_frame_fields time rnd s) as (_ & _ & Hh & Hi & _).
    rewrite Hh, Hi. unfold ELECTROLYTE_DRAIN_S, ION_DRAIN_S.
    split; intros Hdep; rewrite Hdep; split; reflexivity.
  - intros s.
    destruct (step_toggle_fields s) as (_ & _ & Hh & Hi & _).
    rewrite Hh, Hi. unfold handleToggle.
    split; intros Hd; rewrite Hd; unfold_setters; state_simpl;
      split; reflexivity.
Qed.

Lemma gauges_equal_in_reachable_states_witness :
  (depletes 2000 lastGaspState = true /\
   electrolyteHeight (step lastGaspState (Frame 2000 noSpawn)) ==
     Qmax 0 (electrolyteHeight lastGaspState - 5) /\
   visibleIons (step lastGaspState (Frame 2000 noSpawn)) ==
     Qmax 0 (visibleIons lastGaspState - 5)) /\
  (isBatteryDead deadState = true /\
   electrolyteHeight (step deadState Toggle) == 75 /\
   visibleIons (step deadState Toggle) == 75).
Proof.
  destruct (gauges_equal_in_reachable_states [] [])
    as (_ & _ & _ & _ & _ & Hframe & Htoggle).
  split.
  - split; [reflexivity|].
    destruct (Hframe lastGaspState 2000 noSpawn) as [H _].
    apply H. reflexivity.
  - split; [reflexivity|].
    destruct (Htoggle deadState) as [H _]. apply H. reflexivity.
Defined.

Lemma inject_Z_S (n : nat) :
  inject_Z (Z.of_nat (S n)) == inject_Z (Z.of_nat n) + 1.
Proof.
  rewrite Nat2Z.inj_succ, <- Z.add_1_r, inject_Z_plus. reflexivity.
Qed.

Lemma step_batteryInv n s ev :
  batteryInv n s -> batteryInv (countEvent n s ev) (step s ev).
Proof.
  unfold batteryInv. intros [Hh Hd]. destruct ev as [time rnd|]; cbn [countEvent].
  - destruct (step_frame_fields time rnd s) as (_ & Hd' & Hh' & _).
    rewrite Hd', Hh'. destruct (depletes time s) eqn:Hdep; [|split; assumption].
    assert (Hlive : isBatteryDead s = false).
    { unfold depletes, energized in Hdep.
      destruct (isCircuitClosed s), (isBatteryDead s); cbn in Hdep;
        congruence. }
    assert (Hpos : 0 < electrolyteHeight s).
    { destruct (Qlt_le_dec 0 (electrolyteHeight s)) as [Hl|Hl]; [exact Hl|].
      assert (H0 : electrolyteHeight s == 0).
      { pose proof (Qmax_0_nonneg (75 - inject_Z (Z.of_nat n) * ELECTROLYTE_DRAIN_S)).
        qlra. }
      apply Hd in H0. congruence. }
    rewrite Hlive, orb_false_r.
    split; [|apply JS_eq_true].
    rewrite inject_Z_S. unfold ELECTROLYTE_DRAIN_S in *.
    set (k := inject_Z (Z.of_nat n)) in *.
    destruct (Qmax_0_cases (75 - k * 5)) as [[Ha Hb] | [Ha Hb]]; [qlra|].
    apply Qmax_0_eq. qlra.
  - destruct (step_toggle_fields s) as (_ & Hd' & Hh' & _).
    rewrite Hd', Hh'. unfold handleToggle.
    destruct (isBatteryDead s) eqn:Hdead; unfold_setters; state_simpl.
    + split; [reflexivity|]. split; [discriminate|].
      intros H. vm_compute in H. discriminate.
    + rewrite Hdead. split; assumption.
Qed.

Lemma run_batteryInv evs : forall n s,
  batteryInv n s ->
  batteryInv (depletionsSinceReset n s evs) (run s evs).
Proof.
  induction evs as [|ev rest IH]; intros n s H; cbn [run depletionsSinceReset];
    [exact H|].
  apply IH. apply step_batteryInv. exact H.
Qed.

(** C1, as the code has it: after [N] depletion events since the start or the
    last reset the stored charge is [max 0 (75 - N * 5)], and in every
    reachable state the dead flag is set exactly when the stored charge is
    [0]: it is raised by the depletion event that brings the charge to [0],
    not before and not after. *)
Theorem charge_after_depletions (seeds : list ElectronSeed) (evs : list Event) :
  electrolyteHeight (run (init seeds) evs) ==
    Qmax 0 (75 - inject_Z (Z.of_nat (depletionsSinceReset 0 (init seeds) evs))
                 * ELECTROLYTE_DRAIN_S) /\
  (isBatteryDead (run (init seeds) evs) = true <->
   electrolyteHeight (run (init seeds) evs) == 0).
Proof.
  apply (run_batteryInv evs 0 (init seeds)). unfold batteryInv. split.
  - reflexivity.
  - cbn [init isBatteryDead electrolyteHeight]. split; [discriminate|].
    intros H. vm_compute in H. discriminate.
Qed.

Lemma charge_after_depletions_witness :
  depletionsSinceReset 0 (init []) fifteenSeconds = 15%nat /\
  electrolyteHeight (run (init []) fifteenSeconds) == 0 /\
  isBatteryDead (run (init []) fifteenSeconds) = true.
Proof.
  destruct (charge_after_depletions [] fifteenSeconds) as [Hh Hd].
  assert (Hn : depletionsSinceReset 0 (init []) fifteenSeconds = 15%nat)
    by (vm_compute; reflexivity).
  rewrite Hn in Hh.
  assert (H0 : electrolyteHeight (run (init []) fifteenSeconds) == 0)
    by (rewrite Hh; reflexivity).
  split; [exact Hn|]. split; [exact H0 | apply Hd; exact H0].
Defined.

(** C1, as stated, fails: the charge starts at 75, and a depletion event
    fires on the first energized frame after the switch is closed, when
    16 ms of energized time have been measured. *)
Lemma charge_not_100_minus_seconds :
  let evs := [Frame 5000 noSpawn; Toggle; Frame 5016 noSpawn] in
  electrolyteHeight (run (init []) []) == 75 /\
  energizedSeconds (init []) evs == 16 # 1000 /\
  Qfloor (energizedSeconds (init []) evs) = 0%Z /\
  electrolyteHeight (run (init []) evs) == 70 /\
  ~ electrolyteHeight (run (init []) evs) ==
      Qmax 0 (100 - inject_Z (Qfloor (energizedSeconds (init []) evs)) * 5).
Proof.
  cbv zeta. repeat split; try reflexivity. vm_compute. discriminate.
Qed.

(** ** The remainder operator *)

Lemma trunc_nonneg (q : Q) : 0 <= q -> JS.trunc q = Qfloor q.
Proof.
  destruct q as [n d]. unfold Qle, JS.trunc, Qfloor. cbn. intros H.
  apply Z.quot_div_nonneg; lia.
Qed.

(** For a non-negative dividend [%] is the mathematical residue. *)
Lemma rem_nonneg (a n : Q) :
  0 <= a -> 0 < n ->
  0 <= JS.rem a n /\ JS.rem a n < n /\
  JS.rem a n == a - inject_Z (Qfloor (a / n)) * n.
Proof.
  intros Ha Hn. unfold JS.rem.
  assert (Hq : 0 <= a / n).
  { apply Qle_shift_div_l; [exact Hn | qlra]. }
  rewrite (trunc_nonneg _ Hq).
  assert (Hne : ~ n == 0) by qlra.
  pose proof (Qfloor_le (a / n)) as Hlo.
  pose proof (Qlt_floor (a / n)) as Hhi.
  rewrite inject_Z_plus in Hhi.
  set (k := inject_Z (Qfloor (a / n))) in *.
  assert (Hm : a / n * n == a) by (field; exact Hne).
  assert (Hlo' : k * n <= a).
  { apply Qle_trans with (a / n * n); [|rewrite Hm; apply Qle_refl].
    apply Qmult_le_compat_r; [exact Hlo | qlra]. }
  assert (Hhi' : a < (k + inject_Z 1) * n).
  { apply Qle_lt_trans with (a / n * n); [rewrite Hm; apply Qle_refl|].
    apply Qmult_lt_compat_r; [exact Hn | exact Hhi]. }
  change (inject_Z 1) with 1 in Hhi'.
  repeat split; qlra.
Qed.

(** ** Advancement of the stationary carriers (C9, C5) *)

Lemma PERIMETER_pos : 0 < PERIMETER.
Proof. reflexivity. Qed.

Lemma deltaTimeOf_first time s :
  lastTimeRef s == 0 -> deltaTimeOf time s == 0.
Proof.
  intros H. unfold deltaTimeOf, JS.falsy.
  apply Qeq_bool_iff in H. rewrite H. field.
Qed.

Lemma deltaTimeOf_later time s :
  ~ lastTimeRef s == 0 ->
  deltaTimeOf time s == (time - lastTimeRef s) / 1000.
Proof.
  intros H. unfold deltaTimeOf, JS.falsy.
  destruct (Qeq_bool (lastTimeRef s) 0) eqn:E; [|reflexivity].
  apply Qeq_bool_iff in E. contradiction.
Qed.

Lemma deltaTimeOf_nonneg time s :
  lastTimeRef s <= time -> 0 <= deltaTimeOf time s.
Proof.
  intros H. unfold deltaTimeOf.
  destruct (JS.falsy (lastTimeRef s)).
  - setoid_replace ((time - time) / 1000) with 0 by field. apply Qle_refl.
  - apply Qle_shift_div_l; [reflexivity | qlra].
Qed.

Lemma moveElectron_inRange dt e :
  0 <= dt -> inRange e -> inRange (moveElectron dt e).
Proof.
  intros Hdt [Hlo Hhi]. unfold inRange, moveElectron. cbn [trackPos].
  assert (Ha : 0 <= trackPos e + SPEED_PX_S * dt).
  { unfold SPEED_PX_S. qlra. }
  destruct (rem_nonneg _ _ Ha PERIMETER_pos) as (H1 & H2 & _).
  split; assumption.
Qed.



(** Every event keeps the carriers in range when the frame timestamp does
    not go back. *)
Lemma step_inRange s ev :
  monotone (lastTimeRef s) [ev] ->
  Forall inRange (electrons s) ->
  Forall inRange (electrons (step s ev)).
Proof.
  intros Hm Hr. destruct ev as [time rnd|].
  - destruct Hm as [Hm _].
    destruct (step_frame_fields time rnd s) as (_ & _ & _ & _ & He & _).
    rewrite He. destruct (energized s); [|exact Hr].
    apply Forall_map. revert Hr. apply Forall_impl. intros e.
    apply moveElectron_inRange. apply deltaTimeOf_nonneg. exact Hm.
  - destruct (step_toggle_fields s) as (_ & _ & _ & _ & He & _).
    rewrite He. unfold handleToggle. destruct (isBatteryDead s); exact Hr.
Qed.

Lemma run_inRange evs : forall s,
  monotone (lastTimeRef s) evs ->
  Forall inRange (electrons s) ->
  Forall inRange (electrons (run s evs)).
Proof.
  induction evs as [|ev rest IH]; intros s Hm Hr; cbn [run]; [exact Hr|].
  apply IH.
  - destruct ev as [time rnd|]; cbn [monotone] in Hm.
    + destruct (step_frame_fields time rnd s) as (_ & _ & _ & _ & _ & Ht).
      rewrite Ht. apply Hm.
    + destruct (step_toggle_fields s) as (_ & _ & _ & _ & _ & _ & Ht & _).
      rewrite Ht. unfold handleToggle.
      destruct (isBatteryDead s); exact Hm.
  - apply step_inRange; [|exact Hr].
    destruct ev as [time rnd|]; cbn [monotone] in *; tauto.
Qed.

(** C5, as the code has it: when the initial coordinates are drawn from
    samples in [[0, 1)] and the frame timestamps never go back, every
    stationary carrier's track coordinate is in [[0, PERIMETER)] after every
    event of every run, wrap-around included.  The code does not clamp the
    elapsed time. *)
Theorem electrons_stay_on_track (seeds : list ElectronSeed) (evs : list Event) :
  Forall (fun r => 0 <= rTrack r /\ rTrack r < 1) seeds ->
  monotone 0 evs ->
  Forall inRange (electrons (run (init seeds) evs)).
Proof.
  intros Hs Hm. apply run_inRange; [exact Hm|].
  cbn [init electrons]. apply Forall_map. revert Hs. apply Forall_impl.
  intros r [Hlo Hhi]. unfold inRange, initialElectron. cbn [trackPos].
  unfold PERIMETER, TRACK_W, TRACK_H. split; qlra.
Qed.

Lemma electrons_stay_on_track_witness :
  Forall inRange
         (electrons (run (init [seedAt10; seedAt1020])
                         [Frame 1000 noSpawn; Toggle; Frame 52000 noSpawn;
                          Frame 103000 noSpawn])).
Proof.
  apply electrons_stay_on_track.
  - repeat constructor; vm_compute; congruence.
  - cbn [monotone]. repeat split; vm_compute; congruence.
Defined.

(** C5, as stated, fails: the elapsed time is not clamped, so a timestamp
    that goes back by one second moves the carrier at coordinate 10 to
    coordinate -10. *)
Lemma negative_delta_leaves_track :
  let evs := [Toggle; Frame 2000 noSpawn; Frame 1000 noSpawn] in
  Forall2 Qeq (map trackPos (electrons (init [seedAt10]))) [10] /\
  deltaTimeOf 1000 (run (init [seedAt10]) [Toggle; Frame 2000 noSpawn]) == -1 /\
  Forall2 Qeq (map trackPos (electrons (run (init [seedAt10]) evs))) [-10] /\
  ~ Forall inRange (electrons (run (init [seedAt10]) evs)).
Proof.
  cbv zeta. split; [|split; [|split]].
  - vm_compute. constructor; [reflexivity | constructor].
  - reflexivity.
  - vm_compute. constructor; [reflexivity | constructor].
  - intros H. inversion H as [|e es [Hlo _] _ Heq]; subst.
    revert Hlo. vm_compute. intros Hlo. apply Hlo. reflexivity.
Qed.

(** ** Order within a frame (C3) *)

Lemma depletes_energized time s :
  depletes time s = true ->
  energized s = true /\ isBatteryDead s = false.
Proof.
  unfold depletes, energized.
  destruct (isCircuitClosed s), (isBatteryDead s); cbn; intros H;
    try discriminate; split; reflexivity.
Qed.

(** C3, as the code has it: the carriers are advanced first, on the
    energized flag the frame started with, and the depletion runs after
    them; the frame whose depletion sets the dead flag still moves the
    carriers by [SPEED_PX_S * deltaTime], and they stand still from the next
    frame on. *)
Theorem depletion_stops_carriers_next_frame
    (time : Q) (rnd : Samples) (s : State) :
  depletes time s = true ->
  electrolyteHeight s <= ELECTROLYTE_DRAIN_S ->
  isBatteryDead s = false /\
  isBatteryDead (step s (Frame time rnd)) = true /\
  electrons (step s (Frame time rnd)) =
    map (moveElectron (deltaTimeOf time s)) (electrons s) /\
  forall time' rnd',
    electrons (step (step s (Frame time rnd)) (Frame time' rnd')) =
    electrons (step s (Frame time rnd)).
Proof.
  intros Hdep Hh. destruct (depletes_energized _ _ Hdep) as [Hen Hlive].
  destruct (step_frame_fields time rnd s) as (_ & Hd & _ & _ & He & _).
  assert (Hdead : isBatteryDead (step s (Frame time rnd)) = true).
  { rewrite Hd, Hdep. apply orb_true_iff. left. apply JS_eq_true.
    destruct (Qmax_0_cases (electrolyteHeight s - ELECTROLYTE_DRAIN_S))
      as [[_ H] | [H _]]; [exact H | qlra]. }
  split; [exact Hlive|]. split; [exact Hdead|]. split.
  - rewrite He, Hen. reflexivity.
  - intros time' rnd'.
    destruct (step_frame_fields time' rnd' (step s (Frame time rnd)))
      as (_ & _ & _ & _ & He' & _).
    rewrite He'. unfold energized at 1. rewrite Hdead.
    rewrite andb_false_r. reflexivity.
Qed.

Lemma depletion_stops_carriers_next_frame_witness :
  isBatteryDead lastGaspState = false /\
  isBatteryDead (step lastGaspState (Frame 2000 noSpawn)) = true /\
  electrons (step lastGaspState (Frame 2000 noSpawn)) =
    map (moveElectron (deltaTimeOf 2000 lastGaspState))
        (electrons lastGaspState) /\
  forall time' rnd',
    electrons (step (step lastGaspState (Frame 2000 noSpawn))
                    (Frame time' rnd')) =
    electrons (step lastGaspState (Frame 2000 noSpawn)).
Proof.
  apply (depletion_stops_carriers_next_frame 2000 noSpawn lastGaspState).
  - reflexivity.
  - vm_compute. congruence.
Defined.

(** C3, as stated, fails: in the frame that sets the dead flag the carrier
    at coordinate 100 is still moved to 120. *)
Lemma carriers_move_in_the_dying_frame :
  isBatteryDead lastGaspState = false /\
  deltaTimeOf 2000 lastGaspState == 1 /\
  isBatteryDead (step lastGaspState (Frame 2000 noSpawn)) = true /\
  map trackPos (electrons lastGaspState) = [100] /\
  Forall2 Qeq
    (map trackPos (electrons (step lastGaspState (Frame 2000 noSpawn))))
    [120] /\
  ~ Forall2 Qeq
      (map trackPos (electrons (step lastGaspState (Frame 2000 noSpawn))))
      (map trackPos (electrons lastGaspState)).
Proof.
  repeat split; try reflexivity.
  - vm_compute. constructor; [reflexivity | constructor].
  - intros H. vm_compute in H. inversion H as [|a b la lb Hab _]; subst.
    revert Hab. vm_compute. discriminate.
Qed.

(** ** Timing baselines (C4) *)

Lemma commit_lastSecond_changed old new :
  depsChanged old new = true -> lastSecond (commit old new) = 0.
Proof. intros H. unfold commit. rewrite H. reflexivity. Qed.

Lemma depsChanged_commit old new :
  depsChanged old (commit old new) = depsChanged old new.
Proof.
  destruct (commit_fields old new) as (Hc & Hd & _).
  unfold depsChanged at 1. rewrite Hc, Hd. reflexivity.
Qed.

(** C4, as the code has it: the frame that finds [lastTimeRef] at 0 (the
    very first one) measures zero elapsed time; at every transition of the
    closed or dead flag the once-per-second baseline [lastSecond] restarts
    at 0, while the previous-timestamp baseline [lastTimeRef] is kept, so
    the frame following a toggle measures the time since the frame before
    it. *)
Theorem baselines_at_transitions (s : State) (ev : Event) (time : Q) :
  (lastTimeRef s == 0 -> deltaTimeOf time s == 0) /\
  (depsChanged s (step s ev) = true -> lastSecond (step s ev) = 0) /\
  lastTimeRef (step s Toggle) = lastTimeRef s /\
  (forall t rnd, lastTimeRef (step s (Frame t rnd)) = t) /\
  (~ lastTimeRef s == 0 ->
   deltaTimeOf time (step s Toggle) == (time - lastTimeRef s) / 1000).
Proof.
  assert (Ht : lastTimeRef (step s Toggle) = lastTimeRef s).
  { destruct (step_toggle_fields s) as (_ & _ & _ & _ & _ & _ & Ht & _).
    rewrite Ht. unfold handleToggle. destruct (isBatteryDead s); reflexivity. }
  split; [apply deltaTimeOf_first|]. split; [|split; [exact Ht|split]].
  - destruct ev as [t rnd|]; cbn [step]; rewrite depsChanged_commit;
      apply commit_lastSecond_changed.
  - intros t rnd. apply step_frame_fields.
  - intros Hne. rewrite deltaTimeOf_later; rewrite Ht; [reflexivity | exact Hne].
Qed.

Lemma baselines_at_transitions_witness :
  deltaTimeOf 1000 (init [seedAt1020]) == 0 /\
  lastSecond (step liveState Toggle) = 0 /\
  deltaTimeOf 1016 (step liveState Toggle) == (1016 - lastTimeRef liveState) / 1000.
Proof.
  destruct (baselines_at_transitions (init [seedAt1020]) Toggle 1000) as (H1 & _).
  destruct (baselines_at_transitions liveState Toggle 1016) as (_ & H2 & _ & _ & H3).
  split; [apply H1; reflexivity|].
  split; [apply H2; reflexivity|].
  apply H3. vm_compute. discriminate.
Defined.

(** C4, as stated, fails: the frame that follows the closing of the switch
    measures the 16 ms since the frame before, and moves the carrier. *)
Lemma frame_after_toggle_measures_time :
  let s := run (init [seedAt1020]) [Frame 1000 noSpawn] in
  isCircuitClosed s = false /\
  isCircuitClosed (step s Toggle) = true /\
  deltaTimeOf 1016 (step s Toggle) == 16 # 1000 /\
  ~ deltaTimeOf 1016 (step s Toggle) == 0 /\
  Forall2 Qeq (map trackPos (electrons (step s Toggle))) [1020] /\
  Forall2 Qeq
    (map trackPos (electrons (step (step s Toggle) (Frame 1016 noSpawn))))
    [(1020 + 20 * (16 # 1000))].
Proof.
  cbv zeta. repeat split; try reflexivity.
  - vm_compute. discriminate.
  - vm_compute. constructor; [reflexivity | constructor].
  - vm_compute. constructor; [reflexivity | constructor].
Qed.

(** ** Battery electrons (C7) *)

Section Chemistry.

Local Open Scope R_scope.

Lemma targetX_val : targetX = 400.
Proof. unfold targetX. rlra. Qed.


Lemma distToTarget_sqr be :
  distToTarget be * distToTarget be =
  (targetX - BE.x be) * (targetX - BE.x be)
  + (targetY - BE.y be) * (targetY - BE.y be).
Proof.
  unfold distToTarget. cbv zeta. apply sqrt_sqrt.
  apply Rplus_le_le_0_compat; apply Rle_0_sqr.
Qed.

Lemma slide_near dt be :
  distToTarget be < 5 -> slideBatteryElectrons dt [be] = [].
Proof.
  intros H. unfold slideBatteryElectrons, slideBatteryElectron. cbn [map].
  fold (distToTarget be). destruct (Rlt_dec (distToTarget be) 5); [|contradiction].
  reflexivity.
Qed.

Lemma slide_far dt be :
  5 <= distToTarget be ->
  slideBatteryElectrons dt [be] =
  [BE.mk (BE.id be)
         (BE.x be + (targetX - BE.x be) / distToTarget be * 100 * dt)
         (BE.y be + (targetY - BE.y be) / distToTarget be * 100 * dt)].
Proof.
  intros H. unfold slideBatteryElectrons, slideBatteryElectron. cbn [map].
  fold (distToTarget be). destruct (Rlt_dec (distToTarget be) 5); [rlra|].
  reflexivity.
Qed.


Lemma slideBatteryElectrons_app dt l1 l2 :
  slideBatteryElectrons dt (l1 ++ l2) =
  slideBatteryElectrons dt l1 ++ slideBatteryElectrons dt l2.
Proof.
  unfold slideBatteryElectrons. rewrite map_app, filter_app, map_app.
  reflexivity.
Qed.




Lemma loop_batteryElectrons time rnd s :
  batteryElectrons (loop time rnd s) =
  slideBatteryElectrons (Q2R (deltaTimeOf time s))
                        (batteryElectrons s ++ spawned rnd s).
Proof.
  unfold loop, spawned. cbv zeta.
  change (batteryElectrons (setBatteryElectrons ?f ?x))
    with (f (batteryElectrons x)).
  f_equal. destruct (energized s); cbn [andb].
  - unfold spawn. cbv zeta. destruct (JS.gt _ _).
    + cbn [batteryElectrons setBatteryElectrons setBatteryElectronIdCounter].
      rewrite drain_batteryElectrons.
      cbn [batteryElectrons setElectrons setLastTimeRef].
      f_equal. f_equal. f_equal.
      unfold drain. cbv zeta. destruct (JS.ge _ _); [|reflexivity].
      destruct (JS.eq _ _); reflexivity.
    + rewrite drain_batteryElectrons, app_nil_r. reflexivity.
  - rewrite app_nil_r. reflexivity.
Qed.

Lemma step_batteryElectrons time rnd s :
  batteryElectrons (step s (Frame time rnd)) =
  slideBatteryElectrons (Q2R (deltaTimeOf time s))
                        (batteryElectrons s ++ spawned rnd s).
Proof.
  cbn [step].
  destruct (commit_fields s (loop time rnd s)) as (_ & _ & _ & _ & _ & Hb & _).
  rewrite Hb. apply loop_batteryElectrons.
Qed.


















(** In the proportional variant a frame scales the offset to the target by
    [1 - deltaTime]: the speed is proportional to the distance, not
    constant. *)
Lemma proportional_slide_scales dt be :
  BE.x (Proportional.slideBatteryElectron dt be) - Proportional.targetX =
    (1 - dt) * (BE.x be - Proportional.targetX) /\
  BE.y (Proportional.slideBatteryElectron dt be) - Proportional.targetY =
    (1 - dt) * (BE.y be - Proportional.targetY).
Proof.
  unfold Proportional.slideBatteryElectron. cbn [BE.x BE.y]. split; field.
Qed.

End Chemistry.

(** * Further properties of the component *)

(** Closed comparisons of rationals. *)
Ltac qdecide := first [reflexivity | vm_compute; discriminate | vm_compute; reflexivity].

(** ** Geometry of the track *)

(** Every output of [getXY] has one of the four tangent angles, horizontal
    exactly for 0 and 180; for a coordinate in [[0, PERIMETER]] the point is
    on the midline of the conductor. *)
Theorem getXY_on_midline (p : Q) :
  (Pt.angle (getXY p) == 0 \/ Pt.angle (getXY p) == 90 \/
   Pt.angle (getXY p) == 180 \/ Pt.angle (getXY p) == 270) /\
  (Pt.isHorizontal (getXY p) = true <->
   Pt.angle (getXY p) == 0 \/ Pt.angle (getXY p) == 180) /\
  (0 <= p -> p <= PERIMETER -> onMidline (Pt.x (getXY p)) (Pt.y (getXY p))).
Proof.
  unfold getXY, onMidline. unfold_consts.
  qcases; cbn [Pt.x Pt.y Pt.angle Pt.isHorizontal];
    (split;
     [ first [ left; reflexivity
             | right; left; reflexivity
             | right; right; left; reflexivity
             | right; right; right; reflexivity ]
     | split;
       [ split;
         [ intros H; first [ left; reflexivity | right; reflexivity
                           | discriminate H ]
         | intros [H|H];
           first [ reflexivity | vm_compute in H; discriminate H ] ]
       | intros H0 HP;
         first
           [ left; split; [qlra | split; [qlra | first [left; qlra | right; qlra]]]
           | right; split; [qlra | split; [qlra | first [left; qlra | right; qlra]]] ] ] ]).
Qed.

Lemma getXY_on_midline_witness :
  onMidline (Pt.x (getXY 1020)) (Pt.y (getXY 1020)).
Proof.
  destruct (getXY_on_midline 1020) as (_ & _ & H).
  apply H; vm_compute; discriminate.
Defined.

(** ** Rendering of the stationary carriers *)

Lemma onTopRail_true (pt : Pt.t) :
  Render.onTopRail pt = true <->
  -1 < Pt.y pt - RAIL_OFFSET /\ Pt.y pt - RAIL_OFFSET < 1.
Proof.
  unfold Render.onTopRail. rewrite negb_true_iff. split.
  - intros H. apply Qle_bool_false in H. revert H.
    apply Qabs_case; intros; split; qlra.
  - intros [H1 H2]. destruct (Qle_bool 1 _) eqn:E; [|reflexivity].
    apply Qle_bool_iff in E. revert E. apply Qabs_case; intros; qlra.
Qed.

Lemma isUnderBattery_getXY (p : Q) :
  Render.isUnderBattery (getXY p) = true <->
  485 # 2 <= p /\ p <= 785 # 2.
Proof.
  unfold Render.isUnderBattery.
  rewrite !andb_true_iff, !Qle_bool_iff, onTopRail_true.
  unfold getXY. unfold_consts.
  qcases; cbn [Pt.x Pt.y]; split; intros H; repeat split; qlra.
Qed.

Lemma isUnderSwitch_getXY (closed : bool) (p : Q) :
  Render.isUnderSwitch closed (getXY p) = true <->
  closed = false /\ 885 # 2 <= p /\ p <= 945 # 2.
Proof.
  unfold Render.isUnderSwitch, Render.switchXStart.
  rewrite !andb_true_iff, !Qle_bool_iff, onTopRail_true, negb_true_iff.
  unfold getXY. unfold_consts.
  qcases; cbn [Pt.x Pt.y]; split; intros H; repeat split;
    try tauto; qlra.
Qed.

(** A stationary carrier is not drawn exactly when its track coordinate is
    under the battery, [[242.5, 392.5]], or, while the circuit is open,
    under the switch, [[442.5, 472.5]]; this holds for every value of the
    coordinate. *)
Theorem electron_hidden_iff (closed : bool) (e : Electron) :
  Render.electronCircle closed e = None <->
  (485 # 2 <= trackPos e /\ trackPos e <= 785 # 2) \/
  (closed = false /\ 885 # 2 <= trackPos e /\ trackPos e <= 945 # 2).
Proof.
  unfold Render.electronCircle. cbv zeta.
  rewrite <- isUnderBattery_getXY, <- (isUnderSwitch_getXY closed).
  rewrite <- orb_true_iff.
  destruct (Render.isUnderBattery _ || Render.isUnderSwitch _ _);
    split; intros H; try reflexivity; discriminate H.
Qed.

Lemma electron_hidden_iff_witness :
  Render.electronCircle true (mkElectron 300 0 1 1 (1 # 4)) = None /\
  Render.electronCircle true (mkElectron 450 0 1 1 (1 # 4)) <> None.
Proof.
  split.
  - apply (electron_hidden_iff true (mkElectron 300 0 1 1 (1 # 4))).
    left. cbn [trackPos]. split; qdecide.
  - intros H. apply (electron_hidden_iff true (mkElectron 450 0 1 1 (1 # 4))) in H.
    cbn [trackPos] in H. destruct H as [[_ H] | [H _]]; [|discriminate H].
    revert H. vm_compute. intros H. apply H. reflexivity.
Defined.

(** ** The population of stationary carriers *)

Lemma frozenPart_moveElectron dt e : frozenPart (moveElectron dt e) = frozenPart e.
Proof. reflexivity. Qed.

Lemma step_frozen s ev :
  map frozenPart (electrons (step s ev)) = map frozenPart (electrons s).
Proof.
  destruct ev as [time rnd|].
  - destruct (step_frame_fields time rnd s) as (_ & _ & _ & _ & He & _).
    rewrite He. destruct (energized s); [|reflexivity].
    rewrite map_map. apply map_ext. intros e. apply frozenPart_moveElectron.
  - destruct (step_toggle_fields s) as (_ & _ & _ & _ & He & _).
    rewrite He. unfold handleToggle. destruct (isBatteryDead s); reflexivity.
Qed.

(** No event creates or destroys a stationary carrier or changes its
    transverse offset or its vibration parameters: after every run the
    carriers are as many as before and carry, in the same order, the
    attributes they started with. *)
Theorem electrons_population_frozen (s : State) (evs : list Event) :
  length (electrons (run s evs)) = length (electrons s) /\
  map frozenPart (electrons (run s evs)) = map frozenPart (electrons s).
Proof.
  assert (H : map frozenPart (electrons (run s evs)) = map frozenPart (electrons s)).
  { revert s. induction evs as [|ev rest IH]; intros s; cbn [run]; [reflexivity|].
    rewrite IH. apply step_frozen. }
  split; [|exact H].
  apply (f_equal (@length _)) in H. rewrite !length_map in H. exact H.
Qed.

(** ** The remainder for a dividend of either sign *)

Lemma trunc_opp (q : Q) : JS.trunc (- q) = (- JS.trunc q)%Z.
Proof.
  destruct q as [n d]. unfold JS.trunc. cbn [Qopp Qnum Qden].
  apply Z.quot_opp_l. discriminate.
Qed.

Lemma trunc_close (q : Q) :
  inject_Z (JS.trunc q) - 1 < q /\ q < inject_Z (JS.trunc q) + 1.
Proof.
  destruct (Qlt_le_dec q 0) as [Hneg|Hpos].
  - assert (Hq : 0 <= - q) by qlra.
    pose proof (trunc_nonneg _ Hq) as Ht. rewrite trunc_opp in Ht.
    pose proof (Qfloor_le (- q)) as Hlo.
    pose proof (Qlt_floor (- q)) as Hhi.
    rewrite <- Ht in Hlo, Hhi.
    rewrite inject_Z_plus in Hhi. rewrite inject_Z_opp in Hlo, Hhi.
    change (inject_Z 1) with 1 in Hhi. split; qlra.
  - pose proof (trunc_nonneg _ Hpos) as Ht.
    pose proof (Qfloor_le q) as Hlo.
    pose proof (Qlt_floor q) as Hhi.
    rewrite <- Ht in Hlo, Hhi.
    rewrite inject_Z_plus in Hhi. change (inject_Z 1) with 1 in Hhi.
    split; qlra.
Qed.

Lemma rem_bound (a n : Q) :
  0 < n -> - n < JS.rem a n /\ JS.rem a n < n.
Proof.
  intros Hn. unfold JS.rem.
  assert (Hne : ~ n == 0) by qlra.
  assert (Hm : a / n * n == a) by (field; exact Hne).
  destruct (trunc_close (a / n)) as [Hlo Hhi].
  set (k := inject_Z (JS.trunc (a / n))) in *.
  assert (Hlo' : (k - 1) * n < a).
  { apply Qlt_le_trans with (a / n * n); [|rewrite Hm; apply Qle_refl].
    apply Qmult_lt_compat_r; [exact Hn | exact Hlo]. }
  assert (Hhi' : a < (k + 1) * n).
  { apply Qle_lt_trans with (a / n * n); [rewrite Hm; apply Qle_refl|].
    apply Qmult_lt_compat_r; [exact Hn | exact Hhi]. }
  split; qlra.
Qed.

Lemma step_within_a_perimeter s ev :
  Forall (fun e => - PERIMETER < trackPos e /\ trackPos e < PERIMETER)
         (electrons s) ->
  Forall (fun e => - PERIMETER < trackPos e /\ trackPos e < PERIMETER)
         (electrons (step s ev)).
Proof.
  intros Hr. destruct ev as [time rnd|].
  - destruct (step_frame_fields time rnd s) as (_ & _ & _ & _ & He & _).
    rewrite He. destruct (energized s); [|exact Hr].
    apply Forall_map. apply Forall_forall. intros e _.
    unfold moveElectron. cbn [trackPos]. apply rem_bound. exact PERIMETER_pos.
  - destruct (step_toggle_fields s) as (_ & _ & _ & _ & He & _).
    rewrite He. unfold handleToggle. destruct (isBatteryDead s); exact Hr.
Qed.

(** Whatever the frame timestamps are, backwards jumps included, no
    stationary carrier gets a full perimeter away from the origin: after
    every run from the initial state every track coordinate is strictly
    between [- PERIMETER] and [PERIMETER]. *)
Theorem electrons_within_a_perimeter (seeds : list ElectronSeed) (evs : list Event) :
  Forall (fun r => 0 <= rTrack r /\ rTrack r < 1) seeds ->
  Forall (fun e => - PERIMETER < trackPos e /\ trackPos e < PERIMETER)
         (electrons (run (init seeds) evs)).
Proof.
  intros Hs.
  assert (H0 : Forall (fun e => - PERIMETER < trackPos e /\ trackPos e < PERIMETER)
                      (electrons (init seeds))).
  { cbn [init electrons]. apply Forall_map. revert Hs. apply Forall_impl.
    intros r [Hlo Hhi]. unfold initialElectron. cbn [trackPos].
    unfold PERIMETER, TRACK_W, TRACK_H. split; qlra. }
  revert H0. generalize (init seeds). induction evs as [|ev rest IH];
    intros s H0; cbn [run]; [exact H0|].
  apply IH. apply step_within_a_perimeter. exact H0.
Qed.

Lemma electrons_within_a_perimeter_witness :
  Forall (fun e => - PERIMETER < trackPos e /\ trackPos e < PERIMETER)
         (electrons (run (init [seedAt10])
                         [Toggle; Frame 2000 noSpawn; Frame 1000 noSpawn])).
Proof.
  apply electrons_within_a_perimeter.
  repeat constructor; qdecide.
Defined.

Lemma run_frozen evs : forall s,
  map frozenPart (electrons (run s evs)) = map frozenPart (electrons s).
Proof.
  induction evs as [|ev rest IH]; intros s; cbn [run]; [reflexivity|].
  rewrite IH. apply step_frozen.
Qed.

Lemma circle_on_conductor (closed : bool) (e : Electron) (c : Render.circle) :
  inRange e ->
  -6 <= transversePos e -> transversePos e <= 6 ->
  Render.electronCircle closed e = Some c ->
  onConductor (Render.cx c) (Render.cy c).
Proof.
  intros [Hlo Hhi] Ht1 Ht2. unfold Render.electronCircle. cbv zeta.
  destruct (_ || _); [discriminate|].
  intros H. injection H as H. subst c. cbn [Render.cx Render.cy].
  revert Hlo Hhi. unfold getXY, onConductor.
  unfold OUTER_W, OUTER_H, CONDUCTOR_W. unfold_consts.
  qcases; cbn [Pt.x Pt.y Pt.isHorizontal]; intros Hlo Hhi;
    (split; [qlra | split; [qlra | split; [qlra | split; [qlra|]]]]);
    intros (H1 & H2 & H3 & H4); qlra.
Qed.

(** When the initial samples are in [[0, 1)] and the frame timestamps never
    go back, every circle drawn for a stationary carrier, in every state of
    every run, has its centre on the white conductor frame: inside the
    outer rectangle and not inside the inner one. *)
Theorem electron_circles_on_conductor
    (seeds : list ElectronSeed) (evs : list Event)
    (e : Electron) (c : Render.circle) :
  Forall (fun r => (0 <= rTrack r /\ rTrack r < 1) /\
                   (0 <= rTransverse r /\ rTransverse r < 1)) seeds ->
  monotone 0 evs ->
  In e (electrons (run (init seeds) evs)) ->
  Render.electronCircle (isCircuitClosed (run (init seeds) evs)) e = Some c ->
  onConductor (Render.cx c) (Render.cy c).
Proof.
  intros Hs Hm Hin Hc.
  assert (Hr : Forall inRange (electrons (run (init seeds) evs))).
  { apply run_inRange; [exact Hm|].
    cbn [init electrons]. apply Forall_map. revert Hs. apply Forall_impl.
    intros r [[Hlo Hhi] _]. unfold inRange, initialElectron. cbn [trackPos].
    unfold PERIMETER, TRACK_W, TRACK_H. split; qlra. }
  assert (Ht : Forall (fun f => -6 <= fst (fst (fst f)) /\ fst (fst (fst f)) <= 6)
                      (map frozenPart (electrons (run (init seeds) evs)))).
  { rewrite run_frozen. cbn [init electrons]. rewrite map_map.
    apply Forall_map. revert Hs. apply Forall_impl.
    intros r [_ [Hlo Hhi]]. unfold initialElectron, frozenPart.
    cbn [transversePos fst]. split; qlra. }
  rewrite Forall_map in Ht. rewrite Forall_forall in Hr, Ht.
  specialize (Hr e Hin). specialize (Ht e Hin).
  unfold frozenPart in Ht. cbn [fst] in Ht. destruct Ht as [Ht1 Ht2].
  exact (circle_on_conductor _ e c Hr Ht1 Ht2 Hc).
Qed.

Lemma electron_circles_on_conductor_witness :
  let evs := [Frame 1000 noSpawn; Toggle; Frame 1016 noSpawn] in
  match electrons (run (init [seedAt1020]) evs) with
  | e :: _ =>
      match Render.electronCircle
              (isCircuitClosed (run (init [seedAt1020]) evs)) e with
      | Some c => onConductor (Render.cx c) (Render.cy c)
      | None => False
      end
  | [] => False
  end.
Proof.
  cbv zeta.
  destruct (electrons (run (init [seedAt1020])
                           [Frame 1000 noSpawn; Toggle; Frame 1016 noSpawn]))
    as [|e l] eqn:E; [vm_compute in E; discriminate E|].
  destruct (Render.electronCircle
              (isCircuitClosed
                 (run (init [seedAt1020])
                      [Frame 1000 noSpawn; Toggle; Frame 1016 noSpawn])) e)
    as [c|] eqn:Ec.
  - apply (electron_circles_on_conductor [seedAt1020]
             [Frame 1000 noSpawn; Toggle; Frame 1016 noSpawn] e c).
    + repeat constructor; qdecide.
    + cbn [monotone]. repeat split; qdecide.
    + rewrite E. left. reflexivity.
    + exact Ec.
  - vm_compute in E. injection E as E _. subst e.
    vm_compute in Ec. discriminate Ec.
Defined.

(** ** The battery gauges *)

Lemma batteryInv_value n s :
  batteryInv n s ->
  exists k : Z, (0 <= k <= 15)%Z /\ electrolyteHeight s == inject_Z (5 * k).
Proof.
  intros [Hh _]. unfold ELECTROLYTE_DRAIN_S in Hh.
  destruct (Z_lt_le_dec (Z.of_nat n) 15) as [Hlt|Hge].
  - exists (15 - Z.of_nat n)%Z. split; [lia|].
    rewrite Hh.
    assert (Hq : inject_Z (Z.of_nat n) < 15).
    { change 15 with (inject_Z 15). rewrite <- Zlt_Qlt. exact Hlt. }
    destruct (Qmax_0_cases (75 - inject_Z (Z.of_nat n) * 5)) as [[Ha _] | [_ Hb]];
      [qlra|].
    rewrite Hb, inject_Z_mult.
    unfold Z.sub. rewrite inject_Z_plus, inject_Z_opp.
    change (inject_Z 5) with 5. change (inject_Z 15) with 15. ring.
  - exists 0%Z. split; [lia|].
    rewrite Hh.
    assert (Hq : 15 <= inject_Z (Z.of_nat n)).
    { change 15 with (inject_Z 15). rewrite <- Zle_Qle. exact Hge. }
    destruct (Qmax_0_cases (75 - inject_Z (Z.of_nat n) * 5)) as [[_ Hb] | [Ha _]];
      [|qlra].
    rewrite Hb. reflexivity.
Qed.

Lemma run_gauge_value (seeds : list ElectronSeed) (evs : list Event) :
  exists k : Z,
    (0 <= k <= 15)%Z /\
    electrolyteHeight (run (init seeds) evs) == inject_Z (5 * k) /\
    visibleIons (run (init seeds) evs) == inject_Z (5 * k).
Proof.
  assert (Hinv : batteryInv (depletionsSinceReset 0 (init seeds) evs)
                            (run (init seeds) evs)).
  { apply run_batteryInv. unfold batteryInv. split; [reflexivity|].
    cbn [init isBatteryDead electrolyteHeight]. split; [discriminate|].
    intros H. vm_compute in H. discriminate. }
  destruct (batteryInv_value _ _ Hinv) as (k & Hk & Hh).
  exists k. split; [exact Hk|]. split; [exact Hh|].
  rewrite <- Hh. symmetry. apply run_gauges_equal. reflexivity.
Qed.

(** In every state reached from the initial one the electrolyte level and
    the ion count are the same multiple of 5 between 0 and 75, so the
    electrolyte rectangle [y = 75 - electrolyteHeight],
    [height = electrolyteHeight] stays inside the 75-unit battery box. *)
Theorem battery_gauges_bounded (seeds : list ElectronSeed) (evs : list Event) :
  (0 <= electrolyteHeight (run (init seeds) evs) /\
   0 <= 75 - electrolyteHeight (run (init seeds) evs)) /\
  (0 <= visibleIons (run (init seeds) evs) /\
   visibleIons (run (init seeds) evs) <= 75) /\
  exists k : Z,
    (0 <= k <= 15)%Z /\
    electrolyteHeight (run (init seeds) evs) == inject_Z (5 * k) /\
    visibleIons (run (init seeds) evs) == inject_Z (5 * k).
Proof.
  destruct (run_gauge_value seeds evs) as (k & Hk & Hh & Hi).
  assert (H0 : 0 <= inject_Z (5 * k)).
  { change 0 with (inject_Z 0). rewrite <- Zle_Qle. lia. }
  assert (H75 : inject_Z (5 * k) <= 75).
  { change 75 with (inject_Z 75). rewrite <- Zle_Qle. lia. }
  split; [rewrite Hh; split; qlra|]. split; [rewrite Hi; split; qlra|].
  exists k. repeat split; try assumption; lia.
Qed.

Lemma trunc_inject_Z (q : Q) (m : Z) : q == inject_Z m -> JS.trunc q = m.
Proof.
  destruct q as [n d]. unfold Qeq, JS.trunc. cbn. intros H.
  rewrite Z.mul_1_r in H. rewrite H. apply Z.quot_mul. discriminate.
Qed.

(** In every state reached from the initial one the number of ions shown,
    [positiveIons.slice(0, visibleIons)], is the ion count itself. *)
Theorem shown_ions_count (seeds : list ElectronSeed) (evs : list Event) :
  inject_Z (Z.of_nat (length (Render.shownIons (run (init seeds) evs)))) ==
  visibleIons (run (init seeds) evs).
Proof.
  destruct (run_gauge_value seeds evs) as (k & Hk & _ & Hi).
  unfold Render.shownIons, Render.slice0. cbv zeta.
  rewrite (trunc_inject_Z _ _ Hi).
  change (Z.of_nat (length Render.positiveIons)) with 75%Z.
  destruct (5 * k <? 0)%Z eqn:E; [apply Z.ltb_lt in E; lia|].
  rewrite Z.min_l by lia.
  rewrite length_firstn.
  change (length Render.positiveIons) with 75%nat.
  rewrite Nat.min_l by lia.
  rewrite Z2Nat.id by lia. symmetry. exact Hi.
Qed.

(** ** Timing of the depletion events *)

Lemma drain_lastSecond time s :
  lastSecond (drain time s) =
  if JS.ge (time - lastSecond s) 1000 then time else lastSecond s.
Proof.
  unfold drain. cbv zeta. destruct (JS.ge _ _); [|reflexivity].
  destruct (JS.eq _ _); reflexivity.
Qed.

Lemma loop_lastSecond time rnd s :
  lastSecond (loop time rnd s) =
  if depletes time s then time else lastSecond s.
Proof.
  unfold loop, depletes. cbv zeta.
  change (lastSecond (setBatteryElectrons ?f ?x)) with (lastSecond x).
  destruct (energized s); [|reflexivity]. cbn [andb].
  destruct (spawn_fields rnd
              (drain time (setElectrons (map (moveElectron (deltaTimeOf time s)))
                                        (setLastTimeRef time s))))
    as (_ & _ & _ & _ & _ & _ & Hs).
  rewrite Hs, drain_lastSecond. reflexivity.
Qed.

(** A frame that does not deplete leaves the flags, the gauges and the
    depletion baseline as they were. *)
Lemma step_frame_quiet time rnd s :
  depletes time s = false ->
  isCircuitClosed (step s (Frame time rnd)) = isCircuitClosed s /\
  isBatteryDead (step s (Frame time rnd)) = isBatteryDead s /\
  electrolyteHeight (step s (Frame time rnd)) = electrolyteHeight s /\
  visibleIons (step s (Frame time rnd)) = visibleIons s /\
  lastSecond (step s (Frame time rnd)) = lastSecond s.
Proof.
  intros Hdep.
  destruct (step_frame_fields time rnd s) as (Hc & Hd & Hh & Hi & _).
  rewrite Hdep in Hd, Hh, Hi.
  repeat (split; [assumption|]).
  cbn [step]. unfold commit.
  assert (Hno : depsChanged s (loop time rnd s) = false).
  { rewrite <- depsChanged_commit. fold (step s (Frame time rnd)).
    unfold depsChanged. rewrite Hc, Hd, !eqb_reflx. reflexivity. }
  rewrite Hno, loop_lastSecond, Hdep. reflexivity.
Qed.

Lemma frames_before_baseline evs : forall s n,
  framesWithinASecond (lastSecond s) evs ->
  isBatteryDead (run s evs) = isBatteryDead s /\
  electrolyteHeight (run s evs) = electrolyteHeight s /\
  visibleIons (run s evs) = visibleIons s /\
  lastSecond (run s evs) = lastSecond s /\
  depletionsSinceReset n s evs = n.
Proof.
  induction evs as [|ev rest IH]; intros s n Hf;
    cbn [run depletionsSinceReset]; [repeat split; reflexivity|].
  destruct ev as [time rnd|]; cbn [framesWithinASecond] in Hf; [|contradiction].
  destruct Hf as [Hlt Hrest].
  assert (Hno : depletes time s = false).
  { unfold depletes. apply andb_false_iff. right. unfold JS.ge.
    destruct (Qle_bool 1000 (time - lastSecond s)) eqn:E; [|reflexivity].
    apply Qle_bool_iff in E. qlra. }
  destruct (step_frame_quiet time rnd s Hno) as (_ & Hd & Hh & Hi & Hl).
  cbn [countEvent]. rewrite Hno.
  rewrite <- Hl in Hrest.
  destruct (IH (step s (Frame time rnd)) n Hrest)
    as (Hd' & Hh' & Hi' & Hl' & Hn').
  rewrite Hd', Hh', Hi', Hl', Hn', Hd, Hh, Hi, Hl.
  repeat split; reflexivity.
Qed.

(** After a depletion event that leaves the battery alive, the depletion
    baseline is the timestamp of that frame, and as long as no click comes
    in between, no frame whose timestamp exceeds it by less than 1000 ms
    depletes again: over any such frames the gauges, the dead flag, the
    baseline and the count of depletion events stay as that frame left
    them. *)
Theorem depletions_one_second_apart
    (time : Q) (rnd : Samples) (s : State) (evs : list Event) (n : nat) :
  depletes time s = true ->
  isBatteryDead (step s (Frame time rnd)) = false ->
  framesWithinASecond time evs ->
  lastSecond (step s (Frame time rnd)) = time /\
  isBatteryDead (run (step s (Frame time rnd)) evs) = false /\
  electrolyteHeight (run (step s (Frame time rnd)) evs) =
    electrolyteHeight (step s (Frame time rnd)) /\
  visibleIons (run (step s (Frame time rnd)) evs) =
    visibleIons (step s (Frame time rnd)) /\
  lastSecond (run (step s (Frame time rnd)) evs) = time /\
  depletionsSinceReset n (step s (Frame time rnd)) evs = n.
Proof.
  intros Hdep Halive Hf.
  destruct (depletes_energized _ _ Hdep) as [Hen Hlive].
  destruct (step_frame_fields time rnd s) as (Hc & _).
  assert (Hls : lastSecond (step s (Frame time rnd)) = time).
  { cbn [step]. unfold commit.
    assert (Hd : depsChanged s (loop time rnd s) = false).
    { rewrite <- depsChanged_commit. fold (step s (Frame time rnd)).
      unfold depsChanged. rewrite Hc, Halive, Hlive, eqb_reflx. reflexivity. }
    rewrite Hd, loop_lastSecond, Hdep. reflexivity. }
  rewrite <- Hls in Hf.
  destruct (frames_before_baseline evs (step s (Frame time rnd)) n Hf)
    as (Hd' & Hh' & Hi' & Hl' & Hn').
  rewrite Hd', Hl', Hls, Halive.
  repeat split; assumption.
Qed.

Lemma depletions_one_second_apart_witness :
  lastSecond (step liveState (Frame 2000 noSpawn)) = 2000 /\
  electrolyteHeight
    (run (step liveState (Frame 2000 noSpawn))
         [Frame 2016 noSpawn; Frame 2500 spawnOnRail; Frame 2999 noSpawn]) =
    electrolyteHeight (step liveState (Frame 2000 noSpawn)) /\
  depletionsSinceReset 1 (step liveState (Frame 2000 noSpawn))
    [Frame 2016 noSpawn; Frame 2500 spawnOnRail; Frame 2999 noSpawn] = 1%nat.
Proof.
  destruct (depletions_one_second_apart 2000 noSpawn liveState
              [Frame 2016 noSpawn; Frame 2500 spawnOnRail; Frame 2999 noSpawn] 1)
    as (H1 & _ & H2 & _ & _ & H3).
  - reflexivity.
  - reflexivity.
  - cbn [framesWithinASecond]. repeat split; qdecide.
  - repeat split; assumption.
Defined.

(** ** Toggling twice *)

(** Two clicks while the battery is alive give back the state before them,
    up to the depletion baseline, which restarts at 0; two clicks on a dead
    battery give a closed, energized circuit with the gauges at 75. *)
Theorem toggle_twice (s : State) :
  (isBatteryDead s = false ->
   handleToggle (handleToggle s) = s /\
   step (step s Toggle) Toggle = setLastSecond 0 s) /\
  (isBatteryDead s = true ->
   energized (step (step s Toggle) Toggle) = true /\
   electrolyteHeight (step (step s Toggle) Toggle) = 75 /\
   visibleIons (step (step s Toggle) Toggle) = 75 /\
   electrons (step (step s Toggle) Toggle) = electrons s /\
   batteryElectrons (step (step s Toggle) Toggle) = batteryElectrons s).
Proof.
  destruct s as [c d h i es bes lt idc ls].
  cbn [isBatteryDead]. split; intros Hd; subst d.
  - split.
    + unfold handleToggle. cbn [isBatteryDead setIsCircuitClosed isCircuitClosed
        electrolyteHeight visibleIons electrons batteryElectrons lastTimeRef
        batteryElectronIdCounter lastSecond].
      rewrite negb_involutive. reflexivity.
    + destruct c; reflexivity.
  - destruct c; repeat split; reflexivity.
Qed.

Lemma toggle_twice_witness :
  step (step liveState Toggle) Toggle = setLastSecond 0 liveState /\
  energized (step (step deadState Toggle) Toggle) = true.
Proof.
  split.
  - destruct (toggle_twice liveState) as [H _]. apply H. reflexivity.
  - destruct (toggle_twice deadState) as [_ H]. apply H. reflexivity.
Defined.

(** ** Frames of a circuit that is not energized *)

Lemma step_frame_idle time rnd s :
  energized s = false ->
  let s' := step s (Frame time rnd) in
  isCircuitClosed s' = isCircuitClosed s /\
  isBatteryDead s' = isBatteryDead s /\
  electrolyteHeight s' = electrolyteHeight s /\
  visibleIons s' = visibleIons s /\
  electrons s' = electrons s /\
  batteryElectronIdCounter s' = batteryElectronIdCounter s /\
  (length (batteryElectrons s') <= length (batteryElectrons s))%nat.
Proof.
  intros Hen. cbv zeta.
  destruct (step_frame_fields time rnd s) as (Hc & Hd & Hh & Hi & He & _).
  unfold depletes in Hd, Hh, Hi. rewrite Hen in *. cbn [andb] in *.
  repeat (split; [assumption|]). split.
  - cbn [step].
    destruct (commit_fields s (loop time rnd s))
      as (_ & _ & _ & _ & _ & _ & _ & Hn).
    rewrite Hn. unfold loop. cbv zeta. rewrite Hen. reflexivity.
  - rewrite step_batteryElectrons. unfold spawned. rewrite Hen. cbn [andb].
    rewrite app_nil_r. unfold slideBatteryElectrons.
    rewrite length_map.
    eapply Nat.le_trans; [apply filter_length_le|].
    rewrite length_map. apply Nat.le_refl.
Qed.

(** While the circuit is open or the battery is dead, frames alone change
    neither the flags, nor the gauges, nor the stationary carriers, nor the
    id counter, and the battery electrons can only get fewer: nothing
    drains, moves along the track or is spawned until the next click. *)
Theorem idle_frames_change_nothing (s : State) (evs : list Event) :
  energized s = false ->
  forallb isFrame evs = true ->
  isCircuitClosed (run s evs) = isCircuitClosed s /\
  isBatteryDead (run s evs) = isBatteryDead s /\
  electrolyteHeight (run s evs) = electrolyteHeight s /\
  visibleIons (run s evs) = visibleIons s /\
  electrons (run s evs) = electrons s /\
  batteryElectronIdCounter (run s evs) = batteryElectronIdCounter s /\
  (length (batteryElectrons (run s evs)) <= length (batteryElectrons s))%nat.
Proof.
  revert s. induction evs as [|ev rest IH]; intros s Hen Hf; cbn [run].
  - repeat split; reflexivity.
  - cbn [forallb] in Hf. apply andb_true_iff in Hf. destruct Hf as [Hev Hrest].
    destruct ev as [time rnd|]; [|discriminate Hev].
    destruct (step_frame_idle time rnd s Hen) as (Hc & Hd & Hh & Hi & He & Hn & Hl).
    assert (Hen' : energized (step s (Frame time rnd)) = false).
    { unfold energized. rewrite Hc, Hd. exact Hen. }
    destruct (IH _ Hen' Hrest) as (Hc' & Hd' & Hh' & Hi' & He' & Hn' & Hl').
    rewrite Hc', Hd', Hh', Hi', He', Hn', Hc, Hd, Hh, Hi, He, Hn.
    repeat split; try reflexivity.
    eapply Nat.le_trans; [exact Hl' | exact Hl].
Qed.

Lemma idle_frames_change_nothing_witness :
  electrolyteHeight (run deadState [Frame 4000 noSpawn; Frame 9000 spawnOnRail]) =
    electrolyteHeight deadState /\
  electrons (run deadState [Frame 4000 noSpawn; Frame 9000 spawnOnRail]) =
    electrons deadState.
Proof.
  destruct (idle_frames_change_nothing deadState
              [Frame 4000 noSpawn; Frame 9000 spawnOnRail])
    as (_ & _ & Hh & _ & He & _); [reflexivity | reflexivity |].
  split; assumption.
Defined.

(** ** Ids of the battery electrons *)

Section Ids.

Local Open Scope R_scope.

Lemma slide_single dt be :
  slideBatteryElectrons dt [be] = [] \/
  exists be', slideBatteryElectrons dt [be] = [be'] /\ BE.id be' = BE.id be.
Proof.
  destruct (Rlt_dec (distToTarget be) 5) as [Hnear|Hfar].
  - left. apply slide_near. exact Hnear.
  - right. apply Rnot_lt_le in Hfar. eexists. split; [apply slide_far; exact Hfar|].
    reflexivity.
Qed.

Lemma slide_cons dt be l :
  slideBatteryElectrons dt (be :: l) =
  slideBatteryElectrons dt [be] ++ slideBatteryElectrons dt l.
Proof. apply (slideBatteryElectrons_app dt [be] l). Qed.

Lemma slide_ids_in dt l i :
  In i (map BE.id (slideBatteryElectrons dt l)) -> In i (map BE.id l).
Proof.
  induction l as [|be l IH]; [intros H; exact H|].
  rewrite slide_cons, map_app, in_app_iff. cbn [map In].
  destruct (slide_single dt be) as [H0 | (be' & H1 & Hid)].
  - rewrite H0. cbn [map In]. intros [[]|H]. right. apply IH. exact H.
  - rewrite H1. cbn [map In]. rewrite Hid. intros [[H|[]]|H].
    + left. exact H.
    + right. apply IH. exact H.
Qed.

Lemma slide_ids_NoDup dt l :
  NoDup (map BE.id l) -> NoDup (map BE.id (slideBatteryElectrons dt l)).
Proof.
  induction l as [|be l IH]; intros Hnd; [exact Hnd|].
  cbn [map] in Hnd. inversion Hnd as [|? ? Hnotin Hnd']; subst.
  rewrite slide_cons, map_app.
  destruct (slide_single dt be) as [H0 | (be' & H1 & Hid)].
  - rewrite H0. cbn [map app]. apply IH. exact Hnd'.
  - rewrite H1. cbn [map app]. constructor; [|apply IH; exact Hnd'].
    rewrite Hid. intros Hin. apply Hnotin. apply (slide_ids_in dt). exact Hin.
Qed.

Lemma slide_ids_Forall (P : Z -> Prop) dt l :
  Forall (fun be => P (BE.id be)) l ->
  Forall (fun be => P (BE.id be)) (slideBatteryElectrons dt l).
Proof.
  induction 1 as [|be l Hbe Hl IH]; [constructor|].
  rewrite slide_cons. apply Forall_app. split; [|exact IH].
  destruct (slide_single dt be) as [H0 | (be' & H1 & Hid)].
  - rewrite H0. constructor.
  - rewrite H1. constructor; [rewrite Hid; exact Hbe | constructor].
Qed.

End Ids.

Lemma NoDup_snoc {A : Type} (l : list A) (a : A) :
  NoDup l -> ~ In a l -> NoDup (l ++ [a]).
Proof.
  induction l as [|b l IH]; intros Hnd Hnot; cbn [app].
  - constructor; [intros [] | constructor].
  - inversion Hnd as [|? ? Hb Hl]; subst. constructor.
    + rewrite in_app_iff. intros [H|[H|[]]]; [exact (Hb H)|].
      apply Hnot. left. symmetry. exact H.
    + apply IH; [exact Hl|]. intros H. apply Hnot. right. exact H.
Qed.

Lemma drain_batteryElectronIdCounter time s :
  batteryElectronIdCounter (drain time s) = batteryElectronIdCounter s.
Proof.
  unfold drain. cbv zeta. destruct (JS.ge _ _); [|reflexivity].
  destruct (JS.eq _ _); reflexivity.
Qed.

Lemma loop_batteryElectronIdCounter time rnd s :
  batteryElectronIdCounter (loop time rnd s) =
  (batteryElectronIdCounter s + Z.of_nat (length (spawned rnd s)))%Z.
Proof.
  unfold loop, spawned. cbv zeta.
  change (batteryElectronIdCounter (setBatteryElectrons ?f ?x))
    with (batteryElectronIdCounter x).
  destruct (energized s); cbn [andb].
  - unfold spawn. cbv zeta. destruct (JS.gt _ _).
    + cbn [batteryElectronIdCounter setBatteryElectrons
           setBatteryElectronIdCounter length].
      rewrite drain_batteryElectronIdCounter. reflexivity.
    + rewrite drain_batteryElectronIdCounter. cbn [length].
      change (batteryElectronIdCounter
                (setElectrons ?f (setLastTimeRef ?t s)))
        with (batteryElectronIdCounter s).
      lia.
  - cbn [length]. change (batteryElectronIdCounter (setLastTimeRef ?t s))
      with (batteryElectronIdCounter s). lia.
Qed.

Lemma step_batteryElectronIdCounter time rnd s :
  batteryElectronIdCounter (step s (Frame time rnd)) =
  (batteryElectronIdCounter s + Z.of_nat (length (spawned rnd s)))%Z.
Proof.
  cbn [step].
  destruct (commit_fields s (loop time rnd s)) as (_ & _ & _ & _ & _ & _ & _ & Hn).
  rewrite Hn. apply loop_batteryElectronIdCounter.
Qed.

Lemma spawned_cases rnd s :
  spawned rnd s = [] \/
  exists b, spawned rnd s = [b] /\ BE.id b = batteryElectronIdCounter s.
Proof.
  unfold spawned. destruct (energized s && JS.gt (rSpawn rnd) (7 # 10)).
  - right. eexists. split; reflexivity.
  - left. reflexivity.
Qed.

Lemma step_idsFresh s ev : idsFresh s -> idsFresh (step s ev).
Proof.
  unfold idsFresh. intros (H0 & Hnd & Hall). destruct ev as [time rnd|].
  - rewrite step_batteryElectrons, step_batteryElectronIdCounter.
    split; [lia|].
    destruct (spawned_cases rnd s) as [Hs | (b & Hs & Hid)]; rewrite Hs.
    + rewrite app_nil_r. cbn [length]. rewrite Z.add_0_r.
      split; [apply slide_ids_NoDup; exact Hnd|].
      apply (slide_ids_Forall
               (fun i => (0 <= i < batteryElectronIdCounter s)%Z)).
      exact Hall.
    + cbn [length]. split.
      * apply slide_ids_NoDup. rewrite map_app. cbn [map].
        apply NoDup_snoc; [exact Hnd|]. rewrite Hid.
        intros Hin. apply in_map_iff in Hin. destruct Hin as (be & Hbe & Hin).
        rewrite Forall_forall in Hall. specialize (Hall be Hin). lia.
      * apply (slide_ids_Forall
                 (fun i => (0 <= i < batteryElectronIdCounter s + 1)%Z)).
        apply Forall_app. split.
        -- revert Hall. apply Forall_impl. intros be Hbe. lia.
        -- constructor; [rewrite Hid; lia | constructor].
  - destruct (step_toggle_fields s) as (_ & _ & _ & _ & _ & Hb & _ & Hn).
    rewrite Hb, Hn. unfold handleToggle.
    destruct (isBatteryDead s); repeat split; assumption.
Qed.

(** In every state reached from the initial one the battery electrons have
    pairwise distinct ids, all of them between 0 and the id counter: no id,
    hence no React key, is used twice, also after electrons were removed. *)
Theorem battery_electron_ids_fresh (seeds : list ElectronSeed) (evs : list Event) :
  (0 <= batteryElectronIdCounter (run (init seeds) evs))%Z /\
  NoDup (map BE.id (batteryElectrons (run (init seeds) evs))) /\
  Forall (fun be =>
            (0 <= BE.id be < batteryElectronIdCounter (run (init seeds) evs))%Z)
         (batteryElectrons (run (init seeds) evs)).
Proof.
  assert (H0 : idsFresh (init seeds)).
  { unfold idsFresh. cbn [init batteryElectrons batteryElectronIdCounter map].
    repeat split; [lia | constructor | constructor]. }
  revert H0. generalize (init seeds).
  induction evs as [|ev rest IH]; intros s H0; cbn [run]; [exact H0|].
  apply IH. apply step_idsFresh. exact H0.
Qed.

(** ** Spawning of a battery electron *)

Section Spawn.

Local Open Scope R_scope.

Lemma Q2R_unit (r : Q) :
  (0 <= r)%Q -> (r < 1)%Q -> 0 <= Q2R r /\ Q2R r < 1.
Proof.
  intros H0 H1. apply Qle_Rle in H0. apply Qlt_Rlt in H1.
  replace (Q2R 0) with 0 in H0 by (unfold Q2R; cbn; rlra).
  replace (Q2R 1) with 1 in H1 by (unfold Q2R; cbn; rlra).
  split; assumption.
Qed.

Lemma not_near_target b : BE.x b <= 395 -> 5 <= distToTarget b.
Proof.
  intros Hx. pose proof (distToTarget_sqr b) as Hsq.
  rewrite targetX_val in Hsq.
  assert (Hd0 : 0 <= distToTarget b) by (unfold distToTarget; apply sqrt_pos).
  destruct (Rle_lt_dec 5 (distToTarget b)) as [H|H]; [exact H|].
  exfalso.
  assert (H1 : distToTarget b * distToTarget b < 5 * 5)
    by (apply Rmult_le_0_lt_compat; rlra).
  assert (H2 : 5 * 5 <= (400 - BE.x b) * (400 - BE.x b))
    by (apply Rmult_le_compat; rlra).
  pose proof (Rle_0_sqr (targetY - BE.y b)) as H3. unfold Rsqr in H3.
  rlra.
Qed.

(** An energized frame whose spawn roll exceeds 0.7 creates one battery
    electron: its id is the value of the counter, which then moves on by
    one; for position rolls in [[0, 1)] it starts in the rectangle
    [[350, 395] x [-30, 40]], at a distance of at least 5 from the target,
    so the test [dist < 5] does not remove it and it is still in the
    population at the end of that frame. *)
Theorem spawned_electron_enters (time : Q) (rnd : Samples) (s : State) :
  energized s = true ->
  JS.gt (rSpawn rnd) (7 # 10) = true ->
  (0 <= rStartX rnd)%Q -> (rStartX rnd < 1)%Q ->
  (0 <= rStartY rnd)%Q -> (rStartY rnd < 1)%Q ->
  exists b,
    spawned rnd s = [b] /\
    BE.id b = batteryElectronIdCounter s /\
    (350 <= BE.x b /\ BE.x b <= 395) /\
    (-30 <= BE.y b /\ BE.y b <= 40) /\
    5 <= distToTarget b /\
    batteryElectronIdCounter (step s (Frame time rnd)) =
      (batteryElectronIdCounter s + 1)%Z /\
    exists b',
      In b' (batteryElectrons (step s (Frame time rnd))) /\
      BE.id b' = BE.id b.
Proof.
  intros Hen Hgt Hx0 Hx1 Hy0 Hy1.
  destruct (Q2R_unit _ Hx0 Hx1) as [Rx0 Rx1].
  destruct (Q2R_unit _ Hy0 Hy1) as [Ry0 Ry1].
  assert (Hs : spawned rnd s =
               [BE.mk (batteryElectronIdCounter s)
                      (Q2R (350 + rStartX rnd * 45))
                      (Q2R ((RAIL_OFFSET - (75 # 2)) + rStartY rnd * 70))]).
  { unfold spawned. rewrite Hen, Hgt. reflexivity. }
  assert (Hbx : 350 <= Q2R (350 + rStartX rnd * 45)
                /\ Q2R (350 + rStartX rnd * 45) <= 395).
  { rewrite Q2R_plus, Q2R_mult.
    replace (Q2R 350) with 350 by (unfold Q2R; cbn; rlra).
    replace (Q2R 45) with 45 by (unfold Q2R; cbn; rlra).
    split; rlra. }
  assert (Hby : -30 <= Q2R ((RAIL_OFFSET - (75 # 2)) + rStartY rnd * 70)
                /\ Q2R ((RAIL_OFFSET - (75 # 2)) + rStartY rnd * 70) <= 40).
  { rewrite Q2R_plus, Q2R_mult.
    replace (Q2R (RAIL_OFFSET - (75 # 2))) with (-30)
      by (unfold Q2R; cbn; rlra).
    replace (Q2R 70) with 70 by (unfold Q2R; cbn; rlra).
    split; rlra. }
  eexists. split; [exact Hs|]. cbn [BE.id BE.x BE.y].
  split; [reflexivity|]. split; [exact Hbx|]. split; [exact Hby|].
  match goal with
  | |- 5 <= distToTarget ?b /\ _ =>
      assert (Hfar : 5 <= distToTarget b)
        by (apply not_near_target; cbn [BE.x]; apply Hbx)
  end.
  split; [exact Hfar|]. split.
  - rewrite step_batteryElectronIdCounter, Hs. reflexivity.
  - rewrite step_batteryElectrons, Hs, slideBatteryElectrons_app.
    rewrite (slide_far _ _ Hfar).
    eexists. split; [apply in_or_app; right; left; reflexivity|].
    reflexivity.
Qed.

Lemma spawned_electron_enters_witness :
  exists b,
    spawned spawnOnRail liveState = [b] /\
    BE.id b = batteryElectronIdCounter liveState /\
    5 <= distToTarget b /\
    exists b',
      In b' (batteryElectrons (step liveState (Frame 1250 spawnOnRail))) /\
      BE.id b' = BE.id b.
Proof.
  destruct (spawned_electron_enters 1250 spawnOnRail liveState)
    as (b & Hs & Hid & _ & _ & Hd & _ & Hin); try qdecide.
  exists b. repeat split; assumption.
Defined.

(** ** The proportional variant *)



End Spawn.



(** ** The initial carriers *)

(** For samples in [[0, 1)] an initial carrier has its track coordinate in
    [[0, PERIMETER)], its transverse offset between -6 and 6, and both
    vibration amplitudes of size between 1 and 3. *)
Theorem initialElectron_ranges (r : ElectronSeed) :
  (0 <= rTrack r /\ rTrack r < 1) ->
  (0 <= rTransverse r /\ rTransverse r < 1) ->
  (0 <= rVx r /\ rVx r < 1) ->
  (0 <= rVy r /\ rVy r < 1) ->
  inRange (initialElectron r) /\
  (-6 <= transversePos (initialElectron r) /\
   transversePos (initialElectron r) <= 6) /\
  (1 <= Qabs (vx (initialElectron r)) /\ Qabs (vx (initialElectron r)) <= 3) /\
  (1 <= Qabs (vy (initialElectron r)) /\ Qabs (vy (initialElectron r)) <= 3).
Proof.
  intros [Ht0 Ht1] [Hr0 Hr1] [Hx0 Hx1] [Hy0 Hy1].
  unfold inRange, initialElectron. cbn [trackPos transversePos vx vy].
  unfold PERIMETER, TRACK_W, TRACK_H.
  split; [split; qlra|]. split; [split; qlra|]. split.
  - destruct (JS.gt (rVxSign r) (1 # 2)); qabs_split; split; qlra.
  - destruct (JS.gt (rVySign r) (1 # 2)); qabs_split; split; qlra.
Qed.

Lemma initialElectron_ranges_witness :
  inRange (initialElectron seedAt1020) /\
  1 <= Qabs (vx (initialElectron seedAt1020)).
Proof.
  destruct (initialElectron_ranges seedAt1020) as (H1 & _ & H3 & _);
    try (split; qdecide).
  split; [exact H1 | apply H3].
Defined.

(** The vibration period is printed from the double: for the sample 0.75
    the code computes [0.75 * 0.3 + 0.2] just below 0.425 and prints
    ["0.42s"]. *)
Lemma vfreq_of_three_quarters :
  vfreq (initialElectron seedFreq075) == 42 # 100.
Proof. reflexivity. Qed.

(** ** Life of the battery *)

Lemma step_battery_life n s ev :
  batteryInv n s /\ (n <= 15)%nat ->
  batteryInv (countEvent n s ev) (step s ev) /\ (countEvent n s ev <= 15)%nat.
Proof.
  intros [Hinv Hn]. split; [apply step_batteryInv; exact Hinv|].
  destruct ev as [time rnd|]; cbn [countEvent].
  - destruct (depletes time s) eqn:Hdep; [|exact Hn].
    destruct (depletes_energized _ _ Hdep) as [_ Hlive].
    destruct Hinv as [Hh Hd]. unfold ELECTROLYTE_DRAIN_S in Hh.
    destruct (Nat.eq_dec n 15) as [E|E]; [|lia].
    exfalso. subst n.
    assert (H0 : electrolyteHeight s == 0) by (rewrite Hh; reflexivity).
    apply Hd in H0. congruence.
  - destruct (isBatteryDead s); lia.
Qed.

Lemma run_battery_life evs : forall n s,
  batteryInv n s /\ (n <= 15)%nat ->
  batteryInv (depletionsSinceReset n s evs) (run s evs) /\
  (depletionsSinceReset n s evs <= 15)%nat.
Proof.
  induction evs as [|ev rest IH]; intros n s H0;
    cbn [run depletionsSinceReset]; [exact H0|].
  apply IH. apply step_battery_life. exact H0.
Qed.

(** From the start or the last reset the battery takes exactly 15 depletion
    events: in every reachable state at most 15 have occurred, and the
    battery is dead exactly when all 15 have. *)
Theorem battery_lasts_fifteen_depletions
    (seeds : list ElectronSeed) (evs : list Event) :
  (depletionsSinceReset 0 (init seeds) evs <= 15)%nat /\
  (isBatteryDead (run (init seeds) evs) = true <->
   depletionsSinceReset 0 (init seeds) evs = 15%nat).
Proof.
  assert (H : batteryInv (depletionsSinceReset 0 (init seeds) evs)
                         (run (init seeds) evs) /\
              (depletionsSinceReset 0 (init seeds) evs <= 15)%nat).
  { apply run_battery_life. split; [|lia]. unfold batteryInv.
    split; [reflexivity|].
    cbn [init isBatteryDead electrolyteHeight]. split; [discriminate|].
    intros H. vm_compute in H. discriminate. }
  destruct H as [[Hh Hd] Hn]. split; [exact Hn|].
  set (n := depletionsSinceReset 0 (init seeds) evs) in *.
  unfold ELECTROLYTE_DRAIN_S in Hh. rewrite Hd, Hh. split.
  - intros H0. destruct (Nat.eq_dec n 15) as [E|E]; [exact E|]. exfalso.
    assert (Hlt : inject_Z (Z.of_nat n) < inject_Z 15)
      by (rewrite <- Zlt_Qlt; lia).
    change (inject_Z 15) with 15 in Hlt.
    destruct (Qmax_0_cases (75 - inject_Z (Z.of_nat n) * 5))
      as [[Ha _] | [_ Hb]]; qlra.
  - intros E. rewrite E. reflexivity.
Qed.

Lemma battery_lasts_fifteen_depletions_witness :
  isBatteryDead (run (init []) fifteenSeconds) = true.
Proof.
  destruct (battery_lasts_fifteen_depletions [] fifteenSeconds) as [_ H].
  apply H. vm_compute. reflexivity.
Defined.
